(** * Conversion of the clothing annotations to the darknet (YOLO) layout

    Shallow embedding of the two pieces of original logic of
    [manuscript/10.object-detection-with-YOLO-v5.md]:

    - the [categories] script (collect the labels, [list(set(...))], [sort]);
    - [create_dataset], which downloads every image and writes one label
      file per image, one row per label of every annotation.

    Python exceptions are modelled by an error monad over an explicit state:
    the label file handle is a text buffer, the disk is a finite map from
    paths to contents. Arithmetic is taken through the class [PyNumber], so
    that the same definitions run on binary64 floats (what Python computes)
    and on exact rationals (a second model, used to run the sentiment API). *)

From Stdlib Require Import QArith PrimFloat FloatOps SpecFloat FloatAxioms Ascii.
From stdpp Require Import gmap strings list sorting pretty.

Set Default Proof Using "Type".
Local Set Warnings "-inexact-float".

(** ** Exceptions and the state-and-error monad *)

(** The exceptions the modelled statements can raise. *)
Inductive exn : Type :=
  | ValueError_not_in_list (lbl : string)  (* categories.index(label) *)
  | ValueError_unpack (n : nat)            (* p1, p2 = points, len(points) = n *)
  | URLError (url : string)                (* urllib.request.urlopen *)
  | UnidentifiedImageError.                (* Image.open *)

Inductive result (A : Type) : Type :=
  | Ok (a : A)
  | Raise (e : exn).
Arguments Ok {A} a.
Arguments Raise {A} e.

(** A statement run from state [s] leaves a state and either a value or a
    raised exception; the state reached when the exception is raised is
    kept, as side effects are not rolled back. *)
Definition M (S A : Type) : Type := S -> S * result A.

Definition ret {S A : Type} (a : A) : M S A := fun s => (s, Ok a).
Definition bind {S A B : Type} (m : M S A) (k : A -> M S B) : M S B :=
  fun s =>
    match m s with
    | (s', Ok a) => k a s'
    | (s', Raise e) => (s', Raise e)
    end.
Definition lift {S A : Type} (r : result A) : M S A := fun s => (s, r).

Notation "x <- m ;; k" := (bind m (fun x => k))
  (at level 100, m at next level, right associativity).
Notation "m ;; k" := (bind m (fun _ => k))
  (at level 100, right associativity).

(** [for x in l: body(x)] *)
Fixpoint for_ {S A : Type} (l : list A) (body : A -> M S unit) : M S unit :=
  match l with
  | [] => ret tt
  | x :: rest => body x ;; for_ rest body
  end.

(** [enumerate(l, start)] *)
Fixpoint enumerate_from {A : Type} (start : nat) (l : list A) : list (nat * A) :=
  match l with
  | [] => []
  | x :: rest => (start, x) :: enumerate_from (S start) rest
  end.

(** ** Numbers *)

(** The arithmetic the converter uses on coordinates: [a - b], [a + b],
    [a / 2] and, for stating orderings, [a <= b]. *)
Class PyNumber (num : Type) : Type := {
  num_sub : num -> num -> num;
  num_add : num -> num -> num;
  num_half : num -> num;
  num_leb : num -> num -> bool
}.

(** Python floats: IEEE 754 binary64. *)
#[export] Instance float_number : PyNumber float := {|
  num_sub := PrimFloat.sub;
  num_add := PrimFloat.add;
  num_half := fun a => PrimFloat.div a 2%float;
  num_leb := PrimFloat.leb
|}.

(** Exact rational arithmetic. *)
#[export] Instance Q_number : PyNumber Q := {|
  num_sub := Qminus;
  num_add := Qplus;
  num_half := fun a => Qdiv a (2 # 1);
  num_leb := Qle_bool
|}.

(** The newline character. *)
Definition nl : string := String (Ascii.ascii_of_nat 10) "".

(** ** The disk *)

Record World : Type := mkWorld {
  files : gmap string string;   (* path -> content *)
  dirs : gset string;           (* directories that exist *)
  tqdm_n : nat                  (* iterations the progress bar has counted *)
}.

Definition set_files (f : gmap string string -> gmap string string) (w : World) : World :=
  {| files := f (files w); dirs := dirs w; tqdm_n := tqdm_n w |}.

(** [Path("a/b/c").mkdir(parents=True, exist_ok=True)]: the directory and
    its ancestors exist afterwards; [parts] are the path components. *)
Fixpoint path_prefixes (base : string) (parts : list string) : list string :=
  match parts with
  | [] => []
  | p :: rest =>
      let here := if decide (base = "") then p else base +:+ "/" +:+ p in
      here :: path_prefixes here rest
  end.
Definition mkdir_parents (parts : list string) : M World unit :=
  fun w => ({| files := files w;
               dirs := dirs w ∪ list_to_set (path_prefixes "" parts);
               tqdm_n := tqdm_n w |}, Ok tt).

(** [img.save(path, "JPEG")] *)
Definition save (path data : string) : M World unit :=
  fun w => (set_files <[path := data]> w, Ok tt).

(** [with path.open(mode="w") as f: body]: the file is created or
    truncated, [body] writes to the handle, and the handle is closed (and
    its text flushed) also when [body] raises. *)
Definition with_open_w (path : string) (body : M string unit) : M World unit :=
  fun w =>
    let '(text, r) := body "" in
    (set_files <[path := text]> w, r).

(** [label_file.write(s)] *)
Definition write (s : string) : M string unit :=
  fun buf => (buf +:+ s, Ok tt).

(** The progress bar counts an item once the loop body has finished it. *)
Definition tqdm_update : M World unit :=
  fun w => ({| files := files w; dirs := dirs w; tqdm_n := S (tqdm_n w) |}, Ok tt).

(** ** The outside world *)

(** What the network and the imaging library answer. [urlopen] gives the
    response body, or [None] when it raises; [image_open] decodes it, or
    [None] when the body is no image; [rgb_jpeg] is [convert("RGB")]
    followed by the JPEG encoding that [save] writes. *)
Record Env : Type := mkEnv {
  urlopen : string -> option string;
  image_open : string -> option string;
  rgb_jpeg : string -> string
}.

Section Converter.
Context {num : Type} `{PyNumber num}.

(** [f"{x}"] for a coordinate: Python's float formatting. *)
Variable repr : num -> string.
Variable env : Env.

(** *** Input records *)

Record Point : Type := mkPoint { p_x : num; p_y : num }.

Record Annotation : Type := mkAnnotation {
  label : list string;
  points : list Point;
  imageWidth : nat;
  imageHeight : nat
}.

Record Row : Type := mkRow {
  content : string;
  annotation : list Annotation
}.

(** *** The categories *)

(** The two nested loops with [categories.extend(a['label'])]. *)
Definition all_labels (clothing : list Row) : list string :=
  flat_map (fun c => flat_map label (annotation c)) clothing.

(** [list(set(l))]: the iteration order of a Python set of strings is
    not specified (it changes with the hash seed), so it is a parameter. *)
Variable set_order : list string -> list string.

(** [categories = list(set(categories)); categories.sort()]: strings are
    compared character by character on their codes. *)
Definition categories_of (clothing : list Row) : list string :=
  merge_sort String.le (set_order (all_labels clothing)).

(** *** [list.index] *)

Fixpoint index_from (categories : list string) (lbl : string) (i : nat) : result nat :=
  match categories with
  | [] => Raise (ValueError_not_in_list lbl)
  | c :: rest => if decide (c = lbl) then Ok i else index_from rest lbl (S i)
  end.
Definition index (categories : list string) (lbl : string) : result nat :=
  index_from categories lbl 0.

(** *** One row of a label file *)

(** The four numbers of the formatted row. *)
Record Box : Type := mkBox {
  center_x : num;
  center_y : num;
  width : num;
  height : num
}.

Definition bbox (p1 p2 : Point) : Box :=
  let x1 := p_x p1 in
  let y1 := p_y p1 in
  let x2 := p_x p2 in
  let y2 := p_y p2 in
  let bbox_width := num_sub x2 x1 in
  let bbox_height := num_sub y2 y1 in
  {| center_x := num_add x1 (num_half bbox_width);
     center_y := num_add y1 (num_half bbox_height);
     width := bbox_width;
     height := bbox_height |}.

(** [f"{category_idx} {cx} {cy} {w} {h}\n"] *)
Definition label_row (category_idx : nat) (b : Box) : string :=
  pretty category_idx +:+ " " +:+ repr (center_x b) +:+ " " +:+
  repr (center_y b) +:+ " " +:+ repr (width b) +:+ " " +:+
  repr (height b) +:+ nl.

(** The rows written for one annotation whose labels have the indices
    [idxs]: one row per label, all from the same box. *)
Definition label_rows (idxs : list nat) (b : Box) : string :=
  foldr (fun i rest => label_row i b +:+ rest) "" idxs.

(** The box as the specification words it: the two corners are first
    resolved into [(x1,y1)], [(x2,y2)] by componentwise min and max. *)
Definition num_min (a b : num) : num := if num_leb a b then a else b.
Definition num_max (a b : num) : num := if num_leb a b then b else a.

Definition spec_box (corner_a corner_b : Point) : Box :=
  let x1 := num_min (p_x corner_a) (p_x corner_b) in
  let y1 := num_min (p_y corner_a) (p_y corner_b) in
  let x2 := num_max (p_x corner_a) (p_x corner_b) in
  let y2 := num_max (p_y corner_a) (p_y corner_b) in
  let w := num_sub x2 x1 in
  let h := num_sub y2 y1 in
  {| center_x := num_add x1 (num_half w);
     center_y := num_add y1 (num_half h);
     width := w;
     height := h |}.

(** [p1, p2 = points] *)
Definition unpack2 (pts : list Point) : result (Point * Point) :=
  match pts with
  | [p1; p2] => Ok (p1, p2)
  | _ => Raise (ValueError_unpack (length pts))
  end.

(** *** [create_dataset] *)

(** Body of [for label in a['label']]. *)
Definition write_label (categories : list string) (a : Annotation)
    (lbl : string) : M string unit :=
  category_idx <- lift (index categories lbl) ;;
  pp <- lift (unpack2 (points a)) ;;
  write (label_row category_idx (bbox (fst pp) (snd pp))).

(** Body of [for a in row['annotation']]. *)
Definition write_annotation (categories : list string) (a : Annotation) : M string unit :=
  for_ (label a) (write_label categories a).

(** [images_path / image_name] and [labels_path / label_name]. *)
Definition image_file (dataset_type : string) (img_id : nat) : string :=
  "clothing/images/" +:+ dataset_type +:+ "/" +:+ pretty img_id +:+ ".jpeg".
Definition label_file (dataset_type : string) (img_id : nat) : string :=
  "clothing/labels/" +:+ dataset_type +:+ "/" +:+ pretty img_id +:+ ".txt".

(** [urlopen], [Image.open], [convert("RGB")]: the bytes that are saved. *)
Definition fetch (url : string) : result string :=
  match urlopen env url with
  | None => Raise (URLError url)
  | Some body =>
      match image_open env body with
      | None => Raise UnidentifiedImageError
      | Some img => Ok (rgb_jpeg env img)
      end
  end.

(** Body of the loop over [enumerate(tqdm(clothing))]. *)
Definition convert_row (categories : list string) (dataset_type : string)
    (ir : nat * Row) : M World unit :=
  let img_id := fst ir in
  let row := snd ir in
  img <- lift (fetch (content row)) ;;
  save (image_file dataset_type img_id) img ;;
  with_open_w (label_file dataset_type img_id)
    (for_ (annotation row) (write_annotation categories)).

(** The loop [for img_id, row in enumerate(tqdm(clothing))], with the
    number given to the first record as a parameter. *)
Definition create_dataset_loop (categories : list string) (dataset_type : string)
    (start : nat) (clothing : list Row) : M World unit :=
  for_ (enumerate_from start clothing)
    (fun ir => convert_row categories dataset_type ir ;; tqdm_update).

(** [create_dataset(clothing, categories, dataset_type)]: the two
    directories are made, then the records are numbered from 0. *)
Definition create_dataset (clothing : list Row) (categories : list string)
    (dataset_type : string) : M World unit :=
  mkdir_parents ["clothing"; "images"; dataset_type] ;;
  mkdir_parents ["clothing"; "labels"; dataset_type] ;;
  create_dataset_loop categories dataset_type 0 clothing.

End Converter.

Arguments Point num : clear implicits.
Arguments Annotation num : clear implicits.
Arguments Row num : clear implicits.
Arguments Box num : clear implicits.
Arguments mkPoint {num} p_x p_y.
Arguments mkAnnotation {num} label points imageWidth imageHeight.
Arguments mkRow {num} content annotation.
Arguments mkBox {num} center_x center_y width height.

(** ** Concrete parameters, for running the model *)

(** One admissible [list(set(l))]: the elements of the finite set. *)
Definition gset_order (l : list string) : list string :=
  elements (list_to_set (C := gset string) l).

(** Another one: first occurrences, latest first. *)
Definition rev_order (l : list string) : list string :=
  reverse (remove_dups l).

(** What a [list(set(l))] has to satisfy: no duplicates, same elements. *)
Definition is_set_order (f : list string -> list string) : Prop :=
  forall l, NoDup (f l) /\ forall s, s ∈ f l <-> s ∈ l.

(** The exact decimal expansion of a binary64 float. Python prints the
    shortest prefix of it that reads back as the same float; the exact
    expansion stands for it where the model is run on concrete floats. *)
Fixpoint zeros (n : nat) : string :=
  match n with
  | O => ""
  | S n' => String "0"%char (zeros n')
  end.

Fixpoint drop_zeros (rev_digits : list Ascii.ascii) : list Ascii.ascii :=
  match rev_digits with
  | c :: rest => if decide (c = "0"%char) then drop_zeros rest else rev_digits
  | [] => []
  end.

Definition decimal_of (m : positive) (e : Z) : string :=
  if (0 <=? e)%Z then pretty (Z.pos m * 2 ^ e)%Z +:+ ".0"
  else
    let k := Z.to_nat (- e) in
    let digits := pretty (Z.pos m * 5 ^ (- e))%Z in
    let padded := zeros (S k - String.length digits) +:+ digits in
    let int_len := (String.length padded - k)%nat in
    let frac := String.substring int_len k padded in
    let frac' := String.string_of_list_ascii
                   (reverse (drop_zeros (reverse (String.list_ascii_of_string frac)))) in
    String.substring 0 int_len padded +:+ "." +:+
    (if decide (frac' = "") then "0" else frac').

Definition float_decimal (x : float) : string :=
  match Prim2SF x with
  | S754_zero false => "0.0"
  | S754_zero true => "-0.0"
  | S754_infinity false => "inf"
  | S754_infinity true => "-inf"
  | S754_nan => "nan"
  | S754_finite s m e => (if s then "-" else "") +:+ decimal_of m e
  end.

(** A network on which every URL except ["http://gone"] answers. *)
Definition demo_env : Env := {|
  urlopen := fun url => if decide (url = "http://gone") then None else Some ("body:" +:+ url);
  image_open := fun body => Some body;
  rgb_jpeg := fun img => "jpeg:" +:+ img
|}.

Definition empty_world : World := {| files := ∅; dirs := ∅; tqdm_n := 0 |}.

Definition pt (a b : float) : Point float := mkPoint a b.

(** The two-annotation record shown in the post. *)
Definition jackets : Annotation float :=
  mkAnnotation ["Jackets"]
    [pt 0 0.6185897435897436; pt 0.026415094339622643 0.6185897435897436] 265 312.
Definition skirts : Annotation float :=
  mkAnnotation ["Skirts"]
    [pt 0.01509433962264151 0.03205128205128205; pt 1 0.9839743589743589] 265 312.

(** The first record of the data set, as the post prints it. *)
Definition tops : Annotation float :=
  mkAnnotation ["Tops"]
    [pt 0.02040816326530612 0.2532051282051282; pt 0.9931972789115646 0.8108974358974359]
    147 312.

Definition tops_row : Row float := mkRow "http://tops" [tops].
Definition two_row : Row float := mkRow "http://two" [jackets; skirts].
Definition bare_row : Row float := mkRow "http://bare" [].
Definition gone_row : Row float := mkRow "http://gone" [tops].

(** One annotation carrying two labels. *)
Definition both : Annotation float :=
  mkAnnotation ["Skirts"; "Jackets"] [pt 0.25 0.25; pt 0.75 1] 265 312.

(** [|a - b| <= tol] on floats. *)
Definition within (tol a b : float) : bool :=
  PrimFloat.leb (PrimFloat.abs (PrimFloat.sub a b)) tol.

(** A float that is a zero (of either sign), and one that is NaN. *)
Definition float_zero (x : float) : Prop := exists s, Prim2SF x = S754_zero s.
Definition float_nan (x : float) : Prop := Prim2SF x = S754_nan.

(** ** Notions used to state what a whole batch does *)

(** A record that converts: its image can be fetched, and every label of
    every annotation is among the categories and comes with two points.
    (The points of an annotation without labels are never looked at.) *)
Definition row_clean {num : Type} (env : Env) (categories : list string)
    (row : Row num) : Prop :=
  (exists img, fetch env (content row) = Ok img) /\
  forall a lbl, a ∈ annotation row -> lbl ∈ label a ->
    lbl ∈ categories /\ length (points a) = 2%nat.

(** The (annotation, label) pairs of a record, in the order of the two
    nested loops. *)
Definition labelled {num : Type} (anns : list (Annotation num))
    : list (Annotation num * string) :=
  flat_map (fun a => map (pair a) (label a)) anns.

(** A directory name without a separator, such as ["train"] or ["val"]. *)
Definition slash_free (s : string) : Prop :=
  "/"%char ∉ String.list_ascii_of_string s.

(** A plain directory name: not empty, without a separator, and neither
    ["."] nor [".."]. For such a name the path that [Path(...) / name]
    builds (on a POSIX system) is the strings joined by ["/"], with no
    component dropped, and it names no other directory. *)
Definition plain_name (s : string) : Prop :=
  slash_free s /\ s <> "" /\ s <> "." /\ s <> "..".

(** The directories the two [mkdir] calls make. *)
Definition made_dirs (dataset_type : string) : gset string :=
  list_to_set (path_prefixes "" ["clothing"; "images"; dataset_type]) ∪
  list_to_set (path_prefixes "" ["clothing"; "labels"; dataset_type]).

(** ** The sentiment API: [Model.predict] and the request handler *)

Module Sentiment.

(** [config.json] *)
Record Config : Type := mkConfig {
  BERT_MODEL : string;
  PRE_TRAINED_MODEL : string;
  CLASS_NAMES : list string;
  MAX_SEQUENCE_LEN : nat
}.

(** The loaded model. The tokenizer, the network and the softmax are the
    libraries' and the checkpoint's: [softmax_row max_length text] is the
    flattened row of probabilities they give for [text]. *)
Record Model (num : Type) : Type := mkModel {
  softmax_row : nat -> string -> list num
}.
Arguments softmax_row {num} _ _ _.

Inductive error : Type :=
  | IndexError          (* CLASS_NAMES[predicted_class] out of range *)
  | RuntimeError.       (* torch.max over an empty dimension *)

(** [torch.max(row, dim=1)]: the largest value and the position of its
    first occurrence. *)
Fixpoint torch_max_from {num : Type} `{PyNumber num}
    (best : num) (best_i i : nat) (l : list num) : num * nat :=
  match l with
  | [] => (best, best_i)
  | x :: rest =>
      if num_leb x best then torch_max_from best best_i (S i) rest
      else torch_max_from x i (S i) rest
  end.
Definition torch_max {num : Type} `{PyNumber num} (l : list num) : option (num * nat) :=
  match l with
  | [] => None
  | x :: rest => Some (torch_max_from x 0 1 rest)
  end.

(** [dict(pairs)]: a later pair replaces an earlier one with the same key. *)
Definition dict {V : Type} (pairs : list (string * V)) : gmap string V :=
  foldl (fun m kv => <[fst kv := snd kv]> m) ∅ pairs.

(** [Model.predict(text)] *)
Definition Model_predict {num : Type} `{PyNumber num} (config : Config)
    (self : Model num) (text : string) : error + (string * num * gmap string num) :=
  let probabilities := softmax_row self (MAX_SEQUENCE_LEN config) text in
  match torch_max probabilities with
  | None => inl RuntimeError
  | Some (confidence, predicted_class) =>
      match CLASS_NAMES config !! predicted_class with
      | None => inl IndexError
      | Some name =>
          inr (name, confidence, dict (zip (CLASS_NAMES config) probabilities))
      end
  end.

Record SentimentRequest : Type := mkRequest { text : string }.

Record SentimentResponse (num : Type) : Type := mkResponse {
  probabilities : gmap string num;
  sentiment : string;
  confidence : num
}.
Arguments mkResponse {num} _ _ _.
Arguments probabilities {num} _.
Arguments sentiment {num} _.
Arguments confidence {num} _.

(** The handler of [POST /predict], with the model injected. *)
Definition predict {num : Type} `{PyNumber num} (config : Config)
    (request : SentimentRequest) (model : Model num) : error + SentimentResponse num :=
  match Model_predict config model (text request) with
  | inl e => inl e
  | inr (s, c, p) => inr (mkResponse p s c)
  end.

(** A stand-in model over the rationals, for running the handler. *)
Definition demo_config : Config :=
  mkConfig "bert-base-cased" "assets/model_state_dict.bin"
    ["negative"; "neutral"; "positive"] 160.
Definition demo_model : Model Q :=
  mkModel Q (fun _ txt =>
    if decide (txt = "") then [1 # 3; 1 # 3; 1 # 3] else [1 # 200; 3 # 200; 98 # 100])%Q.

End Sentiment.

(** ** Strings *)

Lemma app_cons (c : ascii) (s t : string) : String c s +:+ t = String c (s +:+ t).
Proof. reflexivity. Qed.

Lemma app_nil_l (t : string) : "" +:+ t = t.
Proof. reflexivity. Qed.

Lemma app_nil_r (s : string) : s +:+ "" = s.
Proof. induction s as [|c s IH]; [done|]. by rewrite app_cons, IH. Qed.

Lemma app_assoc_s (s t u : string) : (s +:+ t) +:+ u = s +:+ (t +:+ u).
Proof. induction s as [|c s IH]; [done|]. by rewrite !app_cons, IH. Qed.

Lemma length_app_s (s t : string) :
  String.length (s +:+ t) = (String.length s + String.length t)%nat.
Proof. induction s as [|c s IH]; [done|]. rewrite app_cons. simpl. by rewrite IH. Qed.

Lemma app_inj_r (t s1 s2 : string) : s1 +:+ t = s2 +:+ t -> s1 = s2.
Proof.
  revert s2. induction s1 as [|c s1 IH]; intros [|d s2] Heq.
  - done.
  - apply (f_equal String.length) in Heq.
    rewrite app_nil_l, app_cons in Heq. simpl in Heq.
    rewrite length_app_s in Heq. lia.
  - apply (f_equal String.length) in Heq.
    rewrite app_nil_l, app_cons in Heq. simpl in Heq.
    rewrite length_app_s in Heq. lia.
  - rewrite !app_cons in Heq. injection Heq as -> Heq.
    f_equal. by apply IH.
Qed.

(** ** Paths *)

Section Paths.
Variable dataset_type : string.

Lemma label_file_inj (i j : nat) :
  label_file dataset_type i = label_file dataset_type j -> i = j.
Proof.
  unfold label_file. intros Heq.
  do 3 apply (inj (String.app _)) in Heq.
  apply app_inj_r in Heq. by apply (inj pretty) in Heq.
Qed.

Lemma image_file_inj (i j : nat) :
  image_file dataset_type i = image_file dataset_type j -> i = j.
Proof.
  unfold image_file. intros Heq.
  do 3 apply (inj (String.app _)) in Heq.
  apply app_inj_r in Heq. by apply (inj pretty) in Heq.
Qed.

Lemma label_file_not_image (i j : nat) :
  label_file dataset_type i <> image_file dataset_type j.
Proof.
  unfold label_file, image_file. intros Heq.
  rewrite !app_cons in Heq. discriminate Heq.
Qed.
End Paths.

(** ** Loops *)

Section Loops.
Context {S A : Type}.
Implicit Types (l : list A) (body : A -> M S unit) (s : S).

Lemma for_app l1 l2 body s :
  for_ (l1 ++ l2) body s =
  match for_ l1 body s with
  | (s', Ok _) => for_ l2 body s'
  | (s', Raise e) => (s', Raise e)
  end.
Proof.
  revert s. induction l1 as [|x l1 IH]; intros s; simpl; [done|].
  unfold bind. destruct (body x s) as [s' [[]|e]]; [apply IH|done].
Qed.

(** A loop raises as soon as its body raises on one of the items,
    whatever the state it is reached in. *)
Lemma for_raises l body x :
  x ∈ l -> (forall s, exists e, snd (body x s) = Raise e) ->
  forall s, exists e, snd (for_ l body s) = Raise e.
Proof.
  intros Hin Hx. induction l as [|y l IH]; intros s; [by inv Hin|].
  simpl. unfold bind. destruct (body y s) as [s' [[]|e]] eqn:Hy.
  - inv Hin; [|by apply IH].
    destruct (Hx s) as [e He]. rewrite Hy in He. done.
  - by exists e.
Qed.

(** An exception that leaves the loop was raised by the body. *)
Lemma for_raise_inv l body s e :
  snd (for_ l body s) = Raise e ->
  exists x s0, x ∈ l /\ snd (body x s0) = Raise e.
Proof.
  revert s. induction l as [|y l IH]; intros s; simpl; [done|].
  unfold bind. destruct (body y s) as [s' [[]|e']] eqn:Hy.
  - intros (x & s0 & Hin & Hx)%IH. exists x, s0. split; [by right|done].
  - simpl. intros [= ->]. exists y, s. split; [by left|by rewrite Hy].
Qed.
End Loops.

(** A loop of writes only ever appends to the buffer. *)
Lemma for_grows {A : Type} (l : list A) (body : A -> M string unit) :
  (forall x buf, exists t, fst (body x buf) = buf +:+ t) ->
  forall buf, exists t, fst (for_ l body buf) = buf +:+ t.
Proof.
  intros Hbody. induction l as [|x l IH]; intros buf; simpl.
  - exists "". by rewrite app_nil_r.
  - unfold bind. destruct (Hbody x buf) as [t Ht].
    destruct (body x buf) as [buf' [[]|e]]; simpl in *; subst.
    + destruct (IH (buf +:+ t)) as [u Hu]. exists (t +:+ u).
      by rewrite Hu, app_assoc_s.
    + by exists t.
Qed.

(** ** [list.index] *)

Lemma index_from_not_in (categories : list string) (lbl : string) (i : nat) :
  lbl ∉ categories -> index_from categories lbl i = Raise (ValueError_not_in_list lbl).
Proof.
  revert i. induction categories as [|c cs IH]; intros i Hnot; simpl; [done|].
  case_decide as Hc; [subst; by destruct Hnot; left|].
  apply IH. intros Hin. apply Hnot. by right.
Qed.

Lemma index_from_raise (categories : list string) (lbl : string) (i : nat) (e : exn) :
  index_from categories lbl i = Raise e ->
  e = ValueError_not_in_list lbl /\ lbl ∉ categories.
Proof.
  revert i. induction categories as [|c cs IH]; intros i; simpl.
  - intros [= <-]. split; [done|]. by intros Hin; inv Hin.
  - case_decide as Hc; [done|]. intros [-> Hnot]%IH. split; [done|].
    intros Hin. inv Hin; done.
Qed.

Lemma index_from_ok (categories : list string) (lbl : string) (i j : nat) :
  index_from categories lbl i = Ok j ->
  exists k, j = (i + k)%nat /\ categories !! k = Some lbl.
Proof.
  revert i. induction categories as [|c cs IH]; intros i; simpl; [done|].
  case_decide as Hc.
  - intros [= <-]. exists 0%nat. subst. split; [lia|done].
  - intros (k & -> & Hk)%IH. exists (S k). split; [lia|done].
Qed.

Lemma index_from_lookup (categories : list string) (lbl : string) (i k : nat) :
  NoDup categories -> categories !! k = Some lbl ->
  index_from categories lbl i = Ok (i + k)%nat.
Proof.
  intros Hnd. revert i k. induction Hnd as [|c cs Hc Hnd IH]; intros i k; [done|].
  destruct k as [|k]; simpl.
  - intros [= ->]. rewrite decide_True by done. f_equal. lia.
  - intros Hk. rewrite decide_False.
    + rewrite (IH (S i) k Hk). f_equal. lia.
    + intros ->. apply Hc. by eapply list_elem_of_lookup_2.
Qed.

(** ** Writing the rows of a label file *)

Section ConverterFacts.
Context {num : Type} `{PyNumber num}.
Variable repr : num -> string.
Variable env : Env.
Variable categories : list string.
Variable dataset_type : string.

Implicit Types (a : Annotation num) (row : Row num) (w : World) (buf lbl : string).

Lemma write_label_ok a lbl i p1 p2 buf :
  index categories lbl = Ok i -> points a = [p1; p2] ->
  write_label repr categories a lbl buf =
  (buf +:+ label_row repr i (bbox p1 p2), Ok tt).
Proof.
  intros Hi Hp. unfold write_label, bind, lift, write, unpack2.
  by rewrite Hi, Hp.
Qed.

Lemma write_label_unknown a lbl buf :
  lbl ∉ categories ->
  write_label repr categories a lbl buf = (buf, Raise (ValueError_not_in_list lbl)).
Proof.
  intros Hnot. unfold write_label, bind, lift, index.
  by rewrite index_from_not_in.
Qed.

Lemma write_label_raise a lbl buf e :
  snd (write_label repr categories a lbl buf) = Raise e ->
  (e = ValueError_not_in_list lbl /\ lbl ∉ categories) \/
  (e = ValueError_unpack (length (points a)) /\ length (points a) <> 2%nat).
Proof.
  unfold write_label, bind, lift, index, write.
  destruct (index_from categories lbl 0) as [i|e'] eqn:Hi; simpl.
  - destruct (points a) as [|p1 [|p2 [|p3 pts]]]; simpl; try done;
      intros [= <-]; right; split; done.
  - intros [= <-]. left. by eapply index_from_raise.
Qed.

Lemma write_label_grows a lbl buf :
  exists t, fst (write_label repr categories a lbl buf) = buf +:+ t.
Proof.
  unfold write_label, bind, lift, write.
  destruct (index categories lbl) as [i|e]; simpl.
  - destruct (unpack2 (points a)) as [pp|e]; simpl; [by eexists|].
    exists "". by rewrite app_nil_r.
  - exists "". by rewrite app_nil_r.
Qed.

Lemma write_labels_ok a lbls idxs p1 p2 buf :
  points a = [p1; p2] ->
  Forall2 (fun lbl i => index categories lbl = Ok i) lbls idxs ->
  for_ lbls (write_label repr categories a) buf =
  (buf +:+ label_rows repr idxs (bbox p1 p2), Ok tt).
Proof.
  intros Hp Hall. revert buf.
  induction Hall as [|lbl i lbls idxs Hi _ IH]; intros buf; simpl.
  - by rewrite app_nil_r.
  - unfold bind. rewrite (write_label_ok _ _ _ _ _ _ Hi Hp).
    by rewrite IH, app_assoc_s.
Qed.

Lemma write_annotation_ok a idxs p1 p2 buf :
  points a = [p1; p2] ->
  Forall2 (fun lbl i => index categories lbl = Ok i) (label a) idxs ->
  write_annotation repr categories a buf =
  (buf +:+ label_rows repr idxs (bbox p1 p2), Ok tt).
Proof. apply write_labels_ok. Qed.

Lemma write_annotation_grows a buf :
  exists t, fst (write_annotation repr categories a buf) = buf +:+ t.
Proof. apply for_grows. intros. apply write_label_grows. Qed.

Lemma write_annotations_grows (anns : list (Annotation num)) buf :
  exists t, fst (for_ anns (write_annotation repr categories) buf) = buf +:+ t.
Proof. apply for_grows. intros. apply write_annotation_grows. Qed.

(** An annotation with a label that is not among the categories makes
    the loop over the annotations raise. *)
Lemma write_annotations_unknown (anns : list (Annotation num)) a lbl buf :
  a ∈ anns -> lbl ∈ label a -> lbl ∉ categories ->
  exists e, snd (for_ anns (write_annotation repr categories) buf) = Raise e.
Proof.
  intros Ha Hl Hnot. revert buf. eapply for_raises; [done|].
  intros buf. unfold write_annotation. revert buf.
  eapply for_raises; [done|].
  intros buf. rewrite write_label_unknown by done. by eexists.
Qed.

(** The exceptions of the loop over the annotations. *)
Lemma write_annotations_raise (anns : list (Annotation num)) buf e :
  snd (for_ anns (write_annotation repr categories) buf) = Raise e ->
  exists a lbl, a ∈ anns /\ lbl ∈ label a /\
    ((e = ValueError_not_in_list lbl /\ lbl ∉ categories) \/
     (e = ValueError_unpack (length (points a)) /\ length (points a) <> 2%nat)).
Proof.
  intros (a & buf1 & Ha & Hraise)%for_raise_inv.
  apply for_raise_inv in Hraise as (lbl & buf2 & Hl & Hraise).
  apply write_label_raise in Hraise. by exists a, lbl.
Qed.

(** ** One record *)

Lemma convert_row_fetch_raise i row w e :
  fetch env (content row) = Raise e ->
  convert_row repr env categories dataset_type (i, row) w = (w, Raise e).
Proof. intros Hf. unfold convert_row, bind, lift. simpl. by rewrite Hf. Qed.

Lemma convert_row_fetched i row w img :
  fetch env (content row) = Ok img ->
  convert_row repr env categories dataset_type (i, row) w =
  (set_files <[label_file dataset_type i :=
                 fst (for_ (annotation row) (write_annotation repr categories) "")]>
     (set_files <[image_file dataset_type i := img]> w),
   snd (for_ (annotation row) (write_annotation repr categories) "")).
Proof.
  intros Hf. unfold convert_row, bind, lift, save, with_open_w. simpl.
  rewrite Hf.
  by destruct (for_ (annotation row) (write_annotation repr categories) "").
Qed.

Lemma convert_row_files_other i row w path :
  path <> image_file dataset_type i -> path <> label_file dataset_type i ->
  files (fst (convert_row repr env categories dataset_type (i, row) w)) !! path =
  files w !! path.
Proof.
  intros Himg Hlbl. destruct (fetch env (content row)) as [img|e] eqn:Hf.
  - rewrite (convert_row_fetched _ _ _ _ Hf). simpl.
    by rewrite !lookup_insert_ne.
  - by rewrite (convert_row_fetch_raise _ _ _ _ Hf).
Qed.

Lemma convert_row_tqdm i row w :
  tqdm_n (fst (convert_row repr env categories dataset_type (i, row) w)) = tqdm_n w.
Proof.
  destruct (fetch env (content row)) as [img|e] eqn:Hf.
  - by rewrite (convert_row_fetched _ _ _ _ Hf).
  - by rewrite (convert_row_fetch_raise _ _ _ _ Hf).
Qed.

End ConverterFacts.

(** ** The loop over the records *)

Lemma enumerate_from_app {A : Type} (start : nat) (l1 l2 : list A) :
  enumerate_from start (l1 ++ l2) =
  enumerate_from start l1 ++ enumerate_from (start + length l1) l2.
Proof.
  revert start. induction l1 as [|x l1 IH]; intros start; simpl.
  - by rewrite Nat.add_0_r.
  - rewrite IH. do 3 f_equal. lia.
Qed.

Section DatasetFacts.
Context {num : Type} `{PyNumber num}.
Variable repr : num -> string.
Variable env : Env.
Variable categories : list string.
Variable dataset_type : string.

Implicit Types (row : Row num) (pre post clothing : list (Row num)) (w : World).

Local Abbreviation loop := (create_dataset_loop repr env categories dataset_type).
Local Abbreviation step := (convert_row repr env categories dataset_type).
Local Abbreviation run c := (create_dataset repr env c categories dataset_type).

Lemma loop_cons start row post w :
  loop start (row :: post) w =
  match step (start, row) w with
  | (w', Ok _) => loop (S start) post (fst (tqdm_update w'))
  | (w', Raise e) => (w', Raise e)
  end.
Proof.
  unfold create_dataset_loop. simpl. unfold bind.
  by destruct (step (start, row) w) as [w' [[]|e]].
Qed.

Lemma loop_app start pre post w :
  loop start (pre ++ post) w =
  match loop start pre w with
  | (w', Ok _) => loop (start + length pre) post w'
  | (w', Raise e) => (w', Raise e)
  end.
Proof.
  unfold create_dataset_loop. by rewrite enumerate_from_app, for_app.
Qed.

(** The loop over records numbered from [start] on touches the image and
    label files of those records only. *)
Lemma loop_files_other start clothing w path :
  (forall i, start <= i < start + length clothing ->
             path <> image_file dataset_type i /\ path <> label_file dataset_type i) ->
  files (fst (loop start clothing w)) !! path = files w !! path.
Proof.
  revert start w. induction clothing as [|row post IH]; intros start w Hpath; [done|].
  rewrite loop_cons. simpl in Hpath.
  pose proof (convert_row_files_other repr env categories dataset_type
                start row w path) as Hstep.
  destruct (Hpath start) as [Himg Hlbl]; [lia|]. specialize (Hstep Himg Hlbl).
  destruct (step (start, row) w) as [w' [[]|e]]; simpl in *; [|done].
  rewrite IH; [done|]. intros i Hi. apply Hpath. lia.
Qed.

Lemma loop_label_below start clothing w i :
  i < start ->
  files (fst (loop start clothing w)) !! label_file dataset_type i =
  files w !! label_file dataset_type i.
Proof.
  intros Hi. apply loop_files_other. intros j Hj. split.
  - apply label_file_not_image.
  - intros Heq%label_file_inj. lia.
Qed.

Lemma loop_image_below start clothing w i :
  i < start ->
  files (fst (loop start clothing w)) !! image_file dataset_type i =
  files w !! image_file dataset_type i.
Proof.
  intros Hi. apply loop_files_other. intros j Hj. split.
  - intros Heq%image_file_inj. lia.
  - intros Heq. symmetry in Heq. by apply label_file_not_image in Heq.
Qed.

(** The progress bar: never decreases, and counts every record of a loop
    that ends normally. *)
Lemma loop_tqdm_le start clothing w :
  tqdm_n w <= tqdm_n (fst (loop start clothing w)).
Proof.
  revert start w. induction clothing as [|row post IH]; intros start w; [done|].
  rewrite loop_cons.
  pose proof (convert_row_tqdm repr env categories dataset_type start row w) as Hn.
  destruct (step (start, row) w) as [w' [[]|e]]; simpl in *; [|lia].
  etrans; [|apply IH]. simpl. lia.
Qed.

Lemma loop_tqdm_ok start clothing w :
  snd (loop start clothing w) = Ok tt ->
  tqdm_n (fst (loop start clothing w)) = (tqdm_n w + length clothing)%nat.
Proof.
  revert start w. induction clothing as [|row post IH]; intros start w; simpl.
  - intros _. unfold create_dataset_loop. simpl. lia.
  - rewrite loop_cons.
    pose proof (convert_row_tqdm repr env categories dataset_type start row w) as Hn.
    destruct (step (start, row) w) as [w' [[]|e]]; simpl in *; [|done].
    intros Hok. rewrite (IH _ _ Hok). simpl. lia.
Qed.

(** A loop that raises stops the progress bar short of the last record. *)
Lemma loop_tqdm_raise start clothing w e :
  snd (loop start clothing w) = Raise e ->
  tqdm_n (fst (loop start clothing w)) < tqdm_n w + length clothing.
Proof.
  revert start w. induction clothing as [|row post IH]; intros start w; simpl.
  - done.
  - rewrite loop_cons.
    pose proof (convert_row_tqdm repr env categories dataset_type start row w) as Hn.
    destruct (step (start, row) w) as [w' [[]|e']]; simpl in *; [|lia].
    intros Hr. apply IH in Hr. simpl in Hr. lia.
Qed.

(** ** [create_dataset] *)

(** The directories are made first; the loop then starts at record 0. *)
Lemma create_dataset_loop_eq clothing w :
  run clothing w = loop 0 clothing (fst (run [] w)).
Proof. done. Qed.

Lemma create_dataset_app pre post w :
  run (pre ++ post) w =
  match run pre w with
  | (w', Ok _) => loop (length pre) post w'
  | (w', Raise e) => (w', Raise e)
  end.
Proof.
  rewrite (create_dataset_loop_eq (pre ++ post) w), (create_dataset_loop_eq pre w).
  by rewrite loop_app.
Qed.

(** Files numbered past the batch are left as they were. *)
Lemma create_dataset_files_beyond clothing w j :
  length clothing <= j ->
  files (fst (run clothing w)) !! label_file dataset_type j =
    files w !! label_file dataset_type j /\
  files (fst (run clothing w)) !! image_file dataset_type j =
    files w !! image_file dataset_type j.
Proof.
  intros Hj. rewrite (create_dataset_loop_eq clothing w).
  rewrite !loop_files_other; [done|..]; intros i Hi; split.
  - intros Heq%image_file_inj. lia.
  - intros Heq. symmetry in Heq. by apply label_file_not_image in Heq.
  - apply label_file_not_image.
  - intros Heq%label_file_inj. lia.
Qed.

(** A batch that raises has not counted its last record. *)
Lemma create_dataset_tqdm_raise clothing w e :
  snd (run clothing w) = Raise e ->
  tqdm_n (fst (run clothing w)) < tqdm_n w + length clothing.
Proof.
  rewrite (create_dataset_loop_eq clothing w). intros Hr.
  by apply loop_tqdm_raise in Hr.
Qed.

Lemma create_dataset_tqdm_ok clothing w :
  snd (run clothing w) = Ok tt ->
  tqdm_n (fst (run clothing w)) = (tqdm_n w + length clothing)%nat.
Proof.
  rewrite (create_dataset_loop_eq clothing w). intros Hr.
  by rewrite (loop_tqdm_ok _ _ _ Hr).
Qed.

(** Once the records [pre] have been converted, what happens to the next
    record [row] is what [convert_row] does to it, and the records after
    it cannot undo it. *)
Lemma create_dataset_at pre row post w :
  snd (run pre w) = Ok tt ->
  let w1 := fst (run pre w) in
  let r := step (length pre, row) w1 in
  files (fst (run (pre ++ row :: post) w)) !! label_file dataset_type (length pre) =
    files (fst r) !! label_file dataset_type (length pre) /\
  files (fst (run (pre ++ row :: post) w)) !! image_file dataset_type (length pre) =
    files (fst r) !! image_file dataset_type (length pre) /\
  (snd r = Ok tt ->
     snd (run (pre ++ [row]) w) = Ok tt /\
     tqdm_n w + length pre < tqdm_n (fst (run (pre ++ row :: post) w))) /\
  (forall e, snd r = Raise e ->
     run (pre ++ row :: post) w = (fst r, Raise e) /\
     tqdm_n (fst r) = (tqdm_n w + length pre)%nat).
Proof.
  intros Hpre w1 r.
  assert (tqdm_n w1 = (tqdm_n w + length pre)%nat) as Hn1.
  { unfold w1. rewrite (create_dataset_loop_eq pre w) in Hpre |- *.
    by rewrite (loop_tqdm_ok _ _ _ Hpre). }
  assert (forall rest, run (pre ++ rest) w = loop (length pre) rest w1) as Happ.
  { intros rest. rewrite create_dataset_app. unfold w1.
    destruct (run pre w) as [w' [[]|e]]; simpl in *; done. }
  rewrite !Happ, !loop_cons.
  pose proof (convert_row_tqdm repr env categories dataset_type (length pre) row w1) as Hn.
  fold r in Hn |- *. destruct r as [w2 [[]|e]]; simpl in *.
  - rewrite loop_label_below, loop_image_below by lia. simpl.
    repeat split; try done.
    + pose proof (loop_tqdm_le (S (length pre)) post
                    {| files := files w2; dirs := dirs w2; tqdm_n := S (tqdm_n w2) |}) as Hle.
      simpl in Hle. lia.
  - repeat split; try done; [congruence|lia].
Qed.

End DatasetFacts.

(** ** The categories *)

Lemma gset_order_ok : is_set_order gset_order.
Proof.
  intros l. unfold gset_order. split.
  - apply NoDup_elements.
  - intros s. rewrite elem_of_elements. set_solver.
Qed.

Lemma rev_order_ok : is_set_order rev_order.
Proof.
  intros l. unfold rev_order. split.
  - rewrite reverse_Permutation. apply NoDup_remove_dups.
  - intros s. by rewrite elem_of_reverse, elem_of_remove_dups.
Qed.

Section CategoriesFacts.
Context {num : Type}.
Variable set_order : list string -> list string.
Hypothesis set_order_ok : is_set_order set_order.

Implicit Types (clothing : list (Row num)).

Lemma categories_of_perm clothing :
  categories_of set_order clothing ≡ₚ set_order (all_labels clothing).
Proof. unfold categories_of. apply merge_sort_Permutation. Qed.

Lemma categories_of_sorted clothing :
  Sorted String.le (categories_of set_order clothing).
Proof. unfold categories_of. apply (Sorted_merge_sort String.le). Qed.

Lemma categories_of_NoDup clothing : NoDup (categories_of set_order clothing).
Proof using set_order_ok.
  rewrite categories_of_perm. apply set_order_ok.
Qed.

Lemma categories_of_elem clothing (s : string) :
  s ∈ categories_of set_order clothing <-> s ∈ all_labels clothing.
Proof using set_order_ok.
  rewrite categories_of_perm. apply set_order_ok.
Qed.

Lemma all_labels_elem clothing (s : string) :
  s ∈ all_labels clothing <->
  exists row a, row ∈ clothing /\ a ∈ annotation row /\ s ∈ label a.
Proof.
  unfold all_labels. rewrite list_elem_of_In, in_flat_map. split.
  - intros (row & Hrow & Hs). apply in_flat_map in Hs as (a & Ha & Hs).
    exists row, a. by rewrite !list_elem_of_In.
  - intros (row & a & Hrow & Ha & Hs). exists row.
    rewrite <-list_elem_of_In. split; [done|].
    apply in_flat_map. exists a. by rewrite <-!list_elem_of_In.
Qed.

End CategoriesFacts.

(** Two sorted duplicate-free lists with the same elements are equal. *)
Lemma sorted_same_elements (l1 l2 : list string) :
  Sorted String.le l1 -> Sorted String.le l2 -> NoDup l1 -> NoDup l2 ->
  (forall s, s ∈ l1 <-> s ∈ l2) -> l1 = l2.
Proof.
  intros Hs1 Hs2 Hn1 Hn2 Hel.
  apply (Sorted_unique String.le); [done..|].
  by apply NoDup_Permutation.
Qed.

(** Settles a goal about every element of a list given in full. *)
Ltac each_row H :=
  repeat (apply elem_of_cons in H as [->|H]; [reflexivity|]);
  by apply elem_of_nil in H.

(** A batch of records without annotations whose images can all be
    fetched converts without an exception, whatever the categories. *)
Lemma loop_bare {num : Type} `{PyNumber num} (repr : num -> string) (env : Env)
    (categories : list string) (dataset_type : string)
    (clothing : list (Row num)) (start : nat) (w : World) :
  (forall row, row ∈ clothing ->
     annotation row = [] /\ exists img, fetch env (content row) = Ok img) ->
  snd (create_dataset_loop repr env categories dataset_type start clothing w) = Ok tt.
Proof.
  revert start w. induction clothing as [|row post IH]; intros start w Hall; [done|].
  rewrite loop_cons. destruct (Hall row) as [Hann [img Himg]]; [by left|].
  rewrite (convert_row_fetched _ _ _ _ _ _ _ _ Himg), Hann. simpl.
  apply IH. intros row' Hin. apply Hall. by right.
Qed.

(** C4. The categories are the distinct labels of the records, sorted
    lexicographically, and [categories.index] gives every category its
    position in that order; the list depends neither on the order in which
    the set is iterated nor on the order (or repetition) of the labels in
    the input: two runs over the same set of labels give the same list. *)
Theorem C4_categories_sorted_and_deterministic :
  forall (num : Type) (order1 order2 : list string -> list string)
         (clothing clothing' : list (Row num)),
    is_set_order order1 -> is_set_order order2 ->
    (forall s, s ∈ all_labels clothing <-> s ∈ all_labels clothing') ->
    categories_of order1 clothing = categories_of order2 clothing' /\
    Sorted String.le (categories_of order1 clothing) /\
    NoDup (categories_of order1 clothing) /\
    (forall s, s ∈ categories_of order1 clothing <->
               exists row a, row ∈ clothing /\ a ∈ annotation row /\ s ∈ label a) /\
    (forall k s, categories_of order1 clothing !! k = Some s ->
                 index (categories_of order1 clothing) s = Ok k).
Proof.
  intros num order1 order2 clothing clothing' Ho1 Ho2 Hsame.
  pose proof (categories_of_NoDup order1 Ho1 clothing) as Hnd.
  repeat split.
  - apply sorted_same_elements;
      auto using categories_of_sorted, categories_of_NoDup.
    intros s. by rewrite !categories_of_elem.
  - apply categories_of_sorted.
  - done.
  - rewrite categories_of_elem by done. by intros ?%all_labels_elem.
  - rewrite categories_of_elem by done. by intros ?%all_labels_elem.
  - intros k s Hk. unfold index.
    by rewrite (index_from_lookup _ _ 0 k Hnd Hk).
Qed.

Lemma C4_categories_witness :
  categories_of gset_order [two_row; tops_row] =
    categories_of rev_order [tops_row; two_row; two_row] /\
  index (categories_of gset_order [two_row; tops_row]) "Skirts" = Ok 1%nat.
Proof.
  destruct (C4_categories_sorted_and_deterministic float gset_order rev_order
              [two_row; tops_row] [tops_row; two_row; two_row]
              gset_order_ok rev_order_ok) as (Heq & _ & _ & _ & Hidx).
  - intros s.
    change (all_labels [two_row; tops_row]) with ["Jackets"; "Skirts"; "Tops"].
    change (all_labels [tops_row; two_row; two_row])
      with ["Tops"; "Jackets"; "Skirts"; "Jackets"; "Skirts"].
    rewrite !elem_of_cons, !elem_of_nil. tauto.
  - split; [exact Heq|]. apply Hidx. vm_compute. reflexivity.
Defined.

(** C9 (as the code has it). When no record carries an annotation the
    categories are the empty list: nothing is raised, and [create_dataset]
    run with that empty list converts every such record whose image can be
    fetched. *)
Theorem C9_no_annotations_empty_categories :
  forall (num : Type) (N : PyNumber num) (order : list string -> list string)
         (clothing : list (Row num)),
    is_set_order order ->
    (forall row, row ∈ clothing -> annotation row = []) ->
    categories_of order clothing = [] /\
    forall (repr : num -> string) (env : Env) (dataset_type : string) (w : World),
      (forall row, row ∈ clothing -> exists img, fetch env (content row) = Ok img) ->
      let out := create_dataset repr env clothing (categories_of order clothing)
                   dataset_type w in
      snd out = Ok tt /\ tqdm_n (fst out) = (tqdm_n w + length clothing)%nat.
Proof.
  intros num N order clothing Ho Hbare. split.
  - assert (forall s, s ∉ categories_of order clothing) as Hnone.
    { intros s. rewrite categories_of_elem by done.
      intros (row & a & Hrow & Ha & _)%all_labels_elem.
      rewrite (Hbare row Hrow) in Ha. by inv Ha. }
    destruct (categories_of order clothing) as [|c cs]; [done|].
    destruct (Hnone c). by left.
  - intros repr env dataset_type w Hfetch out.
    assert (snd out = Ok tt) as Hok.
    { unfold out. rewrite create_dataset_loop_eq. apply loop_bare.
      intros row Hrow. split; [by apply Hbare|by apply Hfetch]. }
    split; [done|]. unfold out in *.
    rewrite create_dataset_loop_eq in Hok |- *.
    by rewrite (loop_tqdm_ok _ _ _ _ _ _ _ Hok).
Qed.

Lemma C9_no_annotations_witness :
  categories_of gset_order [bare_row; bare_row] = [] /\
  tqdm_n (fst (create_dataset float_decimal demo_env [bare_row; bare_row]
                 (categories_of gset_order [bare_row; bare_row]) "val" empty_world)) = 2%nat.
Proof.
  destruct (C9_no_annotations_empty_categories float float_number gset_order
              [bare_row; bare_row] gset_order_ok) as [Hnil Hrun].
  - intros row Hrow. each_row Hrow.
  - split; [exact Hnil|].
    apply (Hrun float_decimal demo_env "val" empty_world).
    intros row Hrow. exists "jpeg:body:http://bare". each_row Hrow.
Defined.

(** C9, the claim refuted: on a record without annotations the script
    yields the empty list of categories instead of an error, and the
    conversion goes through with it. *)
Lemma C9_empty_categories_not_an_error :
  categories_of gset_order [bare_row] = [] /\
  snd (create_dataset float_decimal demo_env [bare_row]
         (categories_of gset_order [bare_row]) "train" empty_world) = Ok tt /\
  files (fst (create_dataset float_decimal demo_env [bare_row]
                (categories_of gset_order [bare_row]) "train" empty_world))
    !! "clothing/labels/train/0.txt" = Some "".
Proof. vm_compute. done. Qed.

(** ** The box of an annotation *)

(** C1, the claim refuted: with the corners given as (0.3,0.6),(0.1,0.2)
    the box is not the one of (0.1,0.2),(0.3,0.6), nor the one the min/max
    resolution gives: its width is negative. *)
Lemma C1_reversed_corners_other_box :
  bbox (pt 0.3 0.6) (pt 0.1 0.2) <> bbox (pt 0.1 0.2) (pt 0.3 0.6) /\
  bbox (pt 0.3 0.6) (pt 0.1 0.2) <> spec_box (pt 0.3 0.6) (pt 0.1 0.2) /\
  PrimFloat.ltb (width (bbox (pt 0.3 0.6) (pt 0.1 0.2))) 0 = true /\
  PrimFloat.ltb 0 (width (bbox (pt 0.1 0.2) (pt 0.3 0.6))) = true.
Proof.
  repeat split; try (vm_compute; reflexivity);
    intros Heq; apply (f_equal (fun b => PrimFloat.ltb (width b) 0)) in Heq;
    vm_compute in Heq; discriminate Heq.
Qed.

(** Subtraction on binary64 floats: exchanging the operands flips the
    sign of the result, a zero result apart (which stays a zero). *)
Lemma binary_round_aux_opp (prec emax : Z) (s : bool) (m e : Z) (l : location) :
  binary_round_aux prec emax (negb s) m e l =
  SFopp (binary_round_aux prec emax s m e l).
Proof.
  unfold binary_round_aux.
  destruct (shr_fexp prec emax m e l) as [mrs' e'].
  destruct (shr_fexp prec emax _ e' loc_Exact) as [mrs'' e''].
  destruct (shr_m mrs''); simpl; try reflexivity.
  destruct (Z.leb e'' (emax - prec)); reflexivity.
Qed.

Lemma binary_normalize_opp (prec emax m e : Z) :
  m <> 0%Z ->
  binary_normalize prec emax (- m) e false =
  SFopp (binary_normalize prec emax m e false).
Proof.
  destruct m as [|p|p]; intros Hm; [done| |]; simpl; unfold binary_round;
    destruct (shl_align _ _ _) as [mz ez].
  - apply (binary_round_aux_opp prec emax false).
  - by rewrite <-(binary_round_aux_opp prec emax true).
Qed.

Lemma SFsub_swap (prec emax : Z) (x y : spec_float) :
  SFsub prec emax y x = SFopp (SFsub prec emax x y) \/
  ((exists s, SFsub prec emax x y = S754_zero s) /\
   (exists s, SFsub prec emax y x = S754_zero s)).
Proof.
  destruct x as [sx|sx| |sx mx ex], y as [sy|sy| |sy my ey]; simpl.
  all: try lazymatch goal with
       | |- context [binary_normalize] => idtac
       | _ => solve [ repeat match goal with b : bool |- _ => destruct b end; simpl;
                      ((left; reflexivity) || (right; split; eexists; reflexivity)) ]
       end.
  rewrite (Z.min_comm ey ex).
  set (a := cond_Zopp sx _). set (b := cond_Zopp sy _).
  destruct (Z.eq_dec (a - b)%Z 0%Z) as [Hz|Hnz].
  - right. replace (b - a)%Z with 0%Z by lia. rewrite Hz.
    split; eexists; reflexivity.
  - left. replace (b - a)%Z with (- (a - b))%Z by lia.
    by apply binary_normalize_opp.
Qed.

Lemma float_sub_swap (x y : float) :
  PrimFloat.sub y x = PrimFloat.opp (PrimFloat.sub x y) \/
  (float_zero (PrimFloat.sub x y) /\ float_zero (PrimFloat.sub y x)).
Proof.
  unfold float_zero.
  destruct (SFsub_swap FloatOps.prec FloatOps.emax (Prim2SF x) (Prim2SF y))
    as [Hopp|[Hz1 Hz2]].
  - left. apply Prim2SF_inj. by rewrite opp_spec, !sub_spec.
  - right. by rewrite !sub_spec.
Qed.

(** A float equal to its own opposite is NaN. *)
Lemma float_opp_fixed (x : float) : x = PrimFloat.opp x -> float_nan x.
Proof.
  intros Heq. apply (f_equal Prim2SF) in Heq. rewrite opp_spec in Heq.
  unfold float_nan. destruct (Prim2SF x) as [s|s| |s m e]; simpl in Heq;
    try done; by destruct s.
Qed.

(** C1 (as the code has it). The corners are taken in the order given,
    [x1,y1] from the first point and [x2,y2] from the second, with no
    min/max. On the binary64 floats the code computes with, swapping the
    corners flips the sign of the width and of the height (a zero stays a
    zero), so the swapped box is the same box only when the width and the
    height are each a zero or NaN. *)
Theorem C1_swapped_corners_negate_size :
  forall p1 p2 : Point float,
    (width (bbox p2 p1) = PrimFloat.opp (width (bbox p1 p2)) \/
     (float_zero (width (bbox p1 p2)) /\ float_zero (width (bbox p2 p1)))) /\
    (height (bbox p2 p1) = PrimFloat.opp (height (bbox p1 p2)) \/
     (float_zero (height (bbox p1 p2)) /\ float_zero (height (bbox p2 p1)))) /\
    (bbox p2 p1 = bbox p1 p2 ->
     (float_zero (width (bbox p1 p2)) \/ float_nan (width (bbox p1 p2))) /\
     (float_zero (height (bbox p1 p2)) \/ float_nan (height (bbox p1 p2)))).
Proof.
  intros [x1 y1] [x2 y2].
  pose proof (float_sub_swap x2 x1) as Hw. pose proof (float_sub_swap y2 y1) as Hh.
  unfold bbox. simpl. split; [done|]. split; [done|].
  intros Heq. injection Heq as _ _ Hweq Hheq. split.
  - destruct Hw as [Hw|[Hw _]]; [|by left].
    right. apply float_opp_fixed. congruence.
  - destruct Hh as [Hh|[Hh _]]; [|by left].
    right. apply float_opp_fixed. congruence.
Qed.

(** C5. When the corners come in order, [x1 <= x2] and [y1 <= y2], the
    box written is the one of the resolved corners: width [x2 - x1], height
    [y2 - y1], centre [x1 + width / 2], [y1 + height / 2]. On binary64
    floats the corners (0.1,0.2),(0.3,0.6) give the centre (0.2,0.4), the
    width 0.2 and the height 0.4 up to 1e-9. *)
Theorem C5_box_of_ordered_corners :
  (forall (num : Type) (N : PyNumber num) (p1 p2 : Point num),
     num_leb (p_x p1) (p_x p2) = true -> num_leb (p_y p1) (p_y p2) = true ->
     bbox p1 p2 = spec_box p1 p2 /\
     width (bbox p1 p2) = num_sub (p_x p2) (p_x p1) /\
     height (bbox p1 p2) = num_sub (p_y p2) (p_y p1) /\
     center_x (bbox p1 p2) = num_add (p_x p1) (num_half (width (bbox p1 p2))) /\
     center_y (bbox p1 p2) = num_add (p_y p1) (num_half (height (bbox p1 p2)))) /\
  within 1e-9 (center_x (bbox (pt 0.1 0.2) (pt 0.3 0.6))) 0.2 = true /\
  within 1e-9 (center_y (bbox (pt 0.1 0.2) (pt 0.3 0.6))) 0.4 = true /\
  within 1e-9 (width (bbox (pt 0.1 0.2) (pt 0.3 0.6))) 0.2 = true /\
  within 1e-9 (height (bbox (pt 0.1 0.2) (pt 0.3 0.6))) 0.4 = true.
Proof.
  split; [|by vm_compute].
  intros num N p1 p2 Hx Hy. repeat split.
  unfold spec_box, bbox, num_min, num_max. by rewrite Hx, Hy.
Qed.

Lemma C5_box_witness :
  bbox (pt 0.1 0.2) (pt 0.3 0.6) = spec_box (pt 0.1 0.2) (pt 0.3 0.6) /\
  width (bbox (pt 0.1 0.2) (pt 0.3 0.6)) = PrimFloat.sub 0.3 0.1.
Proof.
  destruct (proj1 C5_box_of_ordered_corners float float_number
              (pt 0.1 0.2) (pt 0.3 0.6)) as (Hspec & Hw & _).
  - vm_compute. reflexivity.
  - vm_compute. reflexivity.
  - split; [exact Hspec | exact Hw].
Defined.

(** ** The label file of one record *)

Section RecordFacts.
Context {num : Type} `{PyNumber num}.
Variable repr : num -> string.
Variable env : Env.
Variable categories : list string.
Variable dataset_type : string.

Implicit Types (a : Annotation num) (row : Row num) (pre post : list (Row num)).
Implicit Types (w : World) (buf lbl : string).

Local Abbreviation run c := (create_dataset repr env c categories dataset_type).
Local Abbreviation rows_of row :=
  (for_ (annotation row) (write_annotation repr categories) "").

Lemma write_labels_ok_inv a (lbls : list string) p1 p2 buf :
  points a = [p1; p2] ->
  snd (for_ lbls (write_label repr categories a) buf) = Ok tt ->
  exists idxs, Forall2 (fun lbl i => index categories lbl = Ok i) lbls idxs.
Proof.
  intros Hp. revert buf. induction lbls as [|lbl lbls IH]; intros buf; simpl.
  - exists []. constructor.
  - unfold bind. destruct (index categories lbl) as [i|e] eqn:Hi.
    + rewrite (write_label_ok _ _ _ _ _ _ _ _ Hi Hp).
      intros [idxs Hall]%IH. exists (i :: idxs). by constructor.
    + unfold write_label, bind, lift. by rewrite Hi.
Qed.

(** In a loop over the annotations that ends normally, an annotation
    contributes the rows of its labels, between what the annotations
    before and after it write. *)
Lemma write_annotations_at (anns1 anns2 : list (Annotation num)) a p1 p2 buf :
  points a = [p1; p2] ->
  snd (for_ (anns1 ++ a :: anns2) (write_annotation repr categories) buf) = Ok tt ->
  exists idxs before after,
    Forall2 (fun lbl i => index categories lbl = Ok i) (label a) idxs /\
    fst (for_ (anns1 ++ a :: anns2) (write_annotation repr categories) buf) =
      buf +:+ before +:+ label_rows repr idxs (bbox p1 p2) +:+ after.
Proof.
  intros Hp. rewrite for_app.
  destruct (write_annotations_grows repr categories anns1 buf) as [before Hb].
  destruct (for_ anns1 (write_annotation repr categories) buf)
    as [buf1 [[]|e]]; simpl in Hb; [|done]. subst buf1.
  simpl. unfold bind.
  destruct (write_annotation repr categories a (buf +:+ before))
    as [buf2 [[]|e]] eqn:Ha; [|done].
  assert (snd (for_ (label a) (write_label repr categories a) (buf +:+ before)) = Ok tt)
    as [idxs Hall]%(write_labels_ok_inv _ _ _ _ _ Hp).
  { unfold write_annotation in Ha. by rewrite Ha. }
  rewrite (write_annotation_ok _ _ _ _ _ _ _ Hp Hall) in Ha.
  injection Ha as <-.
  destruct (write_annotations_grows repr categories anns2
              ((buf +:+ before) +:+ label_rows repr idxs (bbox p1 p2))) as [after Haft].
  intros _. exists idxs, before, after. split; [done|].
  by rewrite Haft, !app_assoc_s.
Qed.

(** What the batch leaves for the record that follows the converted
    records [pre], when its image can be fetched. *)
Lemma create_dataset_record pre row post w img :
  snd (run pre w) = Ok tt -> fetch env (content row) = Ok img ->
  files (fst (run (pre ++ row :: post) w)) !! label_file dataset_type (length pre) =
    Some (fst (rows_of row)) /\
  files (fst (run (pre ++ row :: post) w)) !! image_file dataset_type (length pre) =
    Some img /\
  (snd (rows_of row) = Ok tt ->
     snd (run (pre ++ [row]) w) = Ok tt /\
     tqdm_n w + length pre < tqdm_n (fst (run (pre ++ row :: post) w))) /\
  (forall e, snd (rows_of row) = Raise e ->
     snd (run (pre ++ row :: post) w) = Raise e).
Proof.
  intros Hpre Himg.
  destruct (create_dataset_at repr env categories dataset_type pre row post w Hpre)
    as (Hlbl & Hjpg & Hok & Hraise).
  rewrite (convert_row_fetched _ _ _ _ _ _ _ _ Himg) in Hlbl, Hjpg, Hok, Hraise.
  simpl in *. rewrite lookup_insert_eq in Hlbl.
  rewrite lookup_insert_ne, lookup_insert_eq in Hjpg by apply label_file_not_image.
  repeat split; try done; try (by apply Hok).
  intros e He. destruct (Hraise e He) as [-> _]. done.
Qed.

(** A batch that ends normally on [pre ++ [row]] has converted [pre],
    fetched the image of [row] and written all its rows. *)
Lemma create_dataset_snoc_ok pre row w :
  snd (run (pre ++ [row]) w) = Ok tt ->
  snd (run pre w) = Ok tt /\
  (exists img, fetch env (content row) = Ok img) /\
  snd (rows_of row) = Ok tt.
Proof.
  rewrite create_dataset_app.
  destruct (run pre w) as [w1 [[]|e]] eqn:Hpre; [|done].
  rewrite loop_cons.
  destruct (fetch env (content row)) as [img|e] eqn:Himg.
  - rewrite (convert_row_fetched _ _ _ _ _ _ _ _ Himg).
    destruct (rows_of row) as [text [[]|e]]; simpl; [|done].
    intros _. eauto.
  - by rewrite (convert_row_fetch_raise _ _ _ _ _ _ _ _ Himg).
Qed.

(** A record with a label outside the categories makes its conversion
    raise, in whatever state it is started. *)
Lemma convert_row_unknown i row a lbl w :
  a ∈ annotation row -> lbl ∈ label a -> lbl ∉ categories ->
  exists e, snd (convert_row repr env categories dataset_type (i, row) w) = Raise e.
Proof.
  intros Ha Hl Hnot. destruct (fetch env (content row)) as [img|e] eqn:Himg.
  - rewrite (convert_row_fetched _ _ _ _ _ _ _ _ Himg). simpl.
    by eapply write_annotations_unknown.
  - rewrite (convert_row_fetch_raise _ _ _ _ _ _ _ _ Himg). by eexists.
Qed.

(** When the conversion of [row] raises, the batch stops there: what is
    left is what the batch up to and including [row] leaves. *)
Lemma create_dataset_stops pre row post w :
  (forall w1, exists e,
     snd (convert_row repr env categories dataset_type (length pre, row) w1) = Raise e) ->
  exists e,
    run (pre ++ row :: post) w = (fst (run (pre ++ [row]) w), Raise e) /\
    snd (run (pre ++ [row]) w) = Raise e.
Proof.
  intros Hrow. rewrite !create_dataset_app.
  destruct (run pre w) as [w1 [[]|e]]; [|by exists e].
  rewrite !loop_cons. destruct (Hrow w1) as [e He].
  destruct (convert_row repr env categories dataset_type (length pre, row) w1)
    as [w2 [[]|e']]; simpl in He; [done|].
  injection He as ->. by exists e.
Qed.

End RecordFacts.

(** ** What [create_dataset] writes *)

(** C7. A record without annotations that the batch reaches (the records
    before it were converted and its image is fetched) gets a label file
    that exists and is empty; the record is converted without an exception
    and the progress bar counts it. *)
Theorem C7_empty_record_empty_label_file :
  forall (num : Type) (N : PyNumber num) (repr : num -> string) (env : Env)
         (categories : list string) (dataset_type : string)
         (pre post : list (Row num)) (row : Row num) (w : World) (img : string),
    snd (create_dataset repr env pre categories dataset_type w) = Ok tt ->
    fetch env (content row) = Ok img ->
    annotation row = [] ->
    let out := create_dataset repr env (pre ++ row :: post) categories dataset_type w in
    files (fst out) !! label_file dataset_type (length pre) = Some "" /\
    files (fst out) !! image_file dataset_type (length pre) = Some img /\
    snd (create_dataset repr env (pre ++ [row]) categories dataset_type w) = Ok tt /\
    tqdm_n w + length pre < tqdm_n (fst out).
Proof.
  intros num N repr env categories dataset_type pre post row w img Hpre Himg Hann out.
  destruct (create_dataset_record repr env categories dataset_type
              pre row post w img Hpre Himg) as (Hlbl & Hjpg & Hok & _).
  rewrite Hann in Hlbl, Hok. simpl in Hlbl, Hok.
  destruct Hok as [Hrun Hn]; [done|]. by unfold out.
Qed.

Lemma C7_empty_record_witness :
  files (fst (create_dataset float_decimal demo_env [two_row; bare_row; tops_row]
                ["Jackets"; "Skirts"] "train" empty_world))
    !! "clothing/labels/train/1.txt" = Some "" /\
  0 + 1 < tqdm_n (fst (create_dataset float_decimal demo_env
                         [two_row; bare_row; tops_row]
                         ["Jackets"; "Skirts"] "train" empty_world)).
Proof.
  destruct (C7_empty_record_empty_label_file float float_number float_decimal
              demo_env ["Jackets"; "Skirts"] "train" [two_row] [tops_row] bare_row
              empty_world "jpeg:body:http://bare")
    as (Hlbl & _ & _ & Hn).
  - vm_compute. reflexivity.
  - vm_compute. reflexivity.
  - reflexivity.
  - split; [exact Hlbl | exact Hn].
Defined.

(** C8. A record with two annotations of one label each gets a label file
    of two rows, the row of the first annotation before that of the second,
    each made of the category index, the centre, the width and the height
    separated by single spaces and closed by a newline. *)
Theorem C8_two_annotations_two_rows :
  forall (num : Type) (N : PyNumber num) (repr : num -> string) (env : Env)
         (categories : list string) (dataset_type : string)
         (pre post : list (Row num)) (w : World) (url img : string)
         (lbl1 lbl2 : string) (i1 i2 : nat) (p1 p2 q1 q2 : Point num)
         (iw1 ih1 iw2 ih2 : nat),
    snd (create_dataset repr env pre categories dataset_type w) = Ok tt ->
    fetch env url = Ok img ->
    index categories lbl1 = Ok i1 ->
    index categories lbl2 = Ok i2 ->
    let row := mkRow url [mkAnnotation [lbl1] [p1; p2] iw1 ih1;
                          mkAnnotation [lbl2] [q1; q2] iw2 ih2] in
    let b1 := bbox p1 p2 in
    let b2 := bbox q1 q2 in
    files (fst (create_dataset repr env (pre ++ row :: post) categories dataset_type w))
      !! label_file dataset_type (length pre) =
    Some ((pretty i1 +:+ " " +:+ repr (center_x b1) +:+ " " +:+ repr (center_y b1)
             +:+ " " +:+ repr (width b1) +:+ " " +:+ repr (height b1) +:+ nl) +:+
          (pretty i2 +:+ " " +:+ repr (center_x b2) +:+ " " +:+ repr (center_y b2)
             +:+ " " +:+ repr (width b2) +:+ " " +:+ repr (height b2) +:+ nl)).
Proof.
  intros num N repr env categories dataset_type pre post w url img lbl1 lbl2 i1 i2
    p1 p2 q1 q2 iw1 ih1 iw2 ih2 Hpre Himg Hi1 Hi2 row b1 b2.
  destruct (create_dataset_record repr env categories dataset_type
              pre row post w img Hpre Himg) as (Hlbl & _).
  rewrite Hlbl. f_equal. simpl. unfold bind.
  rewrite (write_annotation_ok repr categories _ [i1] p1 p2) by (by repeat constructor).
  rewrite (write_annotation_ok repr categories _ [i2] q1 q2) by (by repeat constructor).
  simpl. by rewrite !app_nil_r, app_nil_l.
Qed.

Lemma C8_two_annotations_witness :
  files (fst (create_dataset float_decimal demo_env [bare_row; two_row]
                ["Jackets"; "Skirts"] "train" empty_world))
    !! "clothing/labels/train/1.txt" =
  Some (label_row float_decimal 0
          (bbox (pt 0 0.6185897435897436)
                (pt 0.026415094339622643 0.6185897435897436)) +:+
        label_row float_decimal 1
          (bbox (pt 0.01509433962264151 0.03205128205128205)
                (pt 1 0.9839743589743589))).
Proof.
  apply (C8_two_annotations_two_rows float float_number float_decimal demo_env
           ["Jackets"; "Skirts"] "train" [bare_row] [] empty_world
           "http://two" "jpeg:body:http://two" "Jackets" "Skirts" 0 1
           (pt 0 0.6185897435897436) (pt 0.026415094339622643 0.6185897435897436)
           (pt 0.01509433962264151 0.03205128205128205) (pt 1 0.9839743589743589)
           265 312 265 312); vm_compute; reflexivity.
Defined.




(** C2, the claim refuted: the first of two records has the label "Tops",
    which is not among the categories; the batch raises there, and the
    second record, which converts when run alone, is never processed. *)
Lemma C2_sibling_not_processed :
  snd (create_dataset float_decimal demo_env [tops_row; two_row]
         ["Jackets"; "Skirts"] "train" empty_world) =
    Raise (ValueError_not_in_list "Tops") /\
  files (fst (create_dataset float_decimal demo_env [tops_row; two_row]
                ["Jackets"; "Skirts"] "train" empty_world))
    !! "clothing/labels/train/1.txt" = None /\
  files (fst (create_dataset float_decimal demo_env [tops_row; two_row]
                ["Jackets"; "Skirts"] "train" empty_world))
    !! "clothing/images/train/1.jpeg" = None /\
  tqdm_n (fst (create_dataset float_decimal demo_env [tops_row; two_row]
                 ["Jackets"; "Skirts"] "train" empty_world)) = 0%nat /\
  snd (create_dataset float_decimal demo_env [two_row]
         ["Jackets"; "Skirts"] "train" empty_world) = Ok tt.
Proof. vm_compute. done. Qed.

(** C2 (as the code has it). A record with a label that is not among the
    categories aborts the batch: [create_dataset] raises, what it leaves is
    what the batch up to and including that record leaves, the progress bar
    has not counted the record and no file of a later record is written.
    When the batch gets as far as the rows of that record, the exception
    is the [ValueError] of [categories.index] on a label of the record. *)
Theorem C2_unknown_category_aborts :
  forall (num : Type) (N : PyNumber num) (repr : num -> string) (env : Env)
         (categories : list string) (dataset_type : string)
         (pre post : list (Row num)) (row : Row num) (w : World)
         (a : Annotation num) (lbl : string),
    a ∈ annotation row -> lbl ∈ label a -> lbl ∉ categories ->
    let upto := create_dataset repr env (pre ++ [row]) categories dataset_type w in
    exists e : exn,
      create_dataset repr env (pre ++ row :: post) categories dataset_type w =
        (fst upto, Raise e) /\
      tqdm_n (fst upto) <= tqdm_n w + length pre /\
      (forall j, length pre < j ->
         files (fst upto) !! label_file dataset_type j =
           files w !! label_file dataset_type j /\
         files (fst upto) !! image_file dataset_type j =
           files w !! image_file dataset_type j) /\
      (snd (create_dataset repr env pre categories dataset_type w) = Ok tt ->
       (exists img, fetch env (content row) = Ok img) ->
       (forall a', a' ∈ annotation row -> length (points a') = 2%nat) ->
       exists a' lbl', a' ∈ annotation row /\ lbl' ∈ label a' /\ (lbl' ∉ categories) /\
                       e = ValueError_not_in_list lbl').
Proof.
  intros num N repr env categories dataset_type pre post row w a lbl Ha Hl Hnot upto.
  destruct (create_dataset_stops repr env categories dataset_type pre row post w)
    as (e & Hrun & Hupto).
  { intros w1. by eapply convert_row_unknown. }
  exists e. fold upto in Hrun, Hupto. split; [done|]. split; [|split].
  - apply create_dataset_tqdm_raise in Hupto. rewrite length_app in Hupto.
    simpl in Hupto. fold upto in Hupto. lia.
  - intros j Hj. unfold upto.
    apply (create_dataset_files_beyond repr env categories dataset_type
             (pre ++ [row]) w j).
    rewrite length_app. simpl. lia.
  - intros Hpre [img Himg] Hpairs.
    destruct (create_dataset_record repr env categories dataset_type
                pre row post w img Hpre Himg) as (_ & _ & _ & Hraise).
    destruct (write_annotations_unknown repr categories (annotation row) a lbl ""
                Ha Hl Hnot) as [e' He'].
    pose proof (Hraise e' He') as Hsame. rewrite Hrun in Hsame.
    simpl in Hsame. injection Hsame as ->.
    apply write_annotations_raise in He' as (a' & lbl' & Ha' & Hl' & [[-> Hn]|[_ Hlen]]).
    + by exists a', lbl'.
    + destruct Hlen. by apply Hpairs.
Qed.

Lemma C2_unknown_category_witness :
  exists e : exn,
    create_dataset float_decimal demo_env [bare_row; tops_row; two_row]
      ["Jackets"; "Skirts"] "train" empty_world =
    (fst (create_dataset float_decimal demo_env [bare_row; tops_row]
            ["Jackets"; "Skirts"] "train" empty_world), Raise e).
Proof.
  destruct (C2_unknown_category_aborts float float_number float_decimal demo_env
              ["Jackets"; "Skirts"] "train" [bare_row] [two_row] tops_row
              empty_world tops "Tops") as (e & Hrun & _).
  - by left.
  - by left.
  - rewrite !elem_of_cons, elem_of_nil. intros [Heq|[Heq|[]]]; discriminate Heq.
  - by exists e.
Defined.

(** C3, the claim refuted: the image of the first of two records cannot
    be fetched; the batch raises [URLError] there, nothing is written or
    counted, and the second record, which converts when run alone, is never
    processed. *)
Lemma C3_fetch_failure_stops_batch :
  snd (create_dataset float_decimal demo_env [gone_row; two_row]
         ["Jackets"; "Skirts"; "Tops"] "train" empty_world) =
    Raise (URLError "http://gone") /\
  files (fst (create_dataset float_decimal demo_env [gone_row; two_row]
                ["Jackets"; "Skirts"; "Tops"] "train" empty_world)) = ∅ /\
  tqdm_n (fst (create_dataset float_decimal demo_env [gone_row; two_row]
                 ["Jackets"; "Skirts"; "Tops"] "train" empty_world)) = 0%nat /\
  snd (create_dataset float_decimal demo_env [two_row]
         ["Jackets"; "Skirts"; "Tops"] "train" empty_world) = Ok tt.
Proof. vm_compute. done. Qed.

(** C3 (as the code has it). When the image of a record cannot be fetched
    the batch is aborted: [create_dataset] raises, what it leaves is what
    the batch over the records before that one leaves, so neither the
    record nor any record after it is written or counted. The exception is
    the [URLError] of that record when the records before it converted. *)
Theorem C3_fetch_failure_aborts :
  forall (num : Type) (N : PyNumber num) (repr : num -> string) (env : Env)
         (categories : list string) (dataset_type : string)
         (pre post : list (Row num)) (row : Row num) (w : World),
    urlopen env (content row) = None ->
    let before := create_dataset repr env pre categories dataset_type w in
    exists e : exn,
      create_dataset repr env (pre ++ row :: post) categories dataset_type w =
        (fst before, Raise e) /\
      (snd before = Ok tt -> e = URLError (content row)) /\
      tqdm_n (fst before) <= tqdm_n w + length pre /\
      (forall j, length pre <= j ->
         files (fst before) !! label_file dataset_type j =
           files w !! label_file dataset_type j /\
         files (fst before) !! image_file dataset_type j =
           files w !! image_file dataset_type j).
Proof.
  intros num N repr env categories dataset_type pre post row w Hgone before.
  assert (fetch env (content row) = Raise (URLError (content row))) as Hfetch.
  { unfold fetch. by rewrite Hgone. }
  assert (tqdm_n (fst before) <= tqdm_n w + length pre) as Hn.
  { destruct (snd before) as [[]|e] eqn:Hb.
    - apply create_dataset_tqdm_ok in Hb. fold before in Hb. lia.
    - apply create_dataset_tqdm_raise in Hb. fold before in Hb. lia. }
  assert (forall j, length pre <= j ->
            files (fst before) !! label_file dataset_type j =
              files w !! label_file dataset_type j /\
            files (fst before) !! image_file dataset_type j =
              files w !! image_file dataset_type j) as Hfiles.
  { intros j Hj. unfold before.
    by apply (create_dataset_files_beyond repr env categories dataset_type pre w j). }
  rewrite create_dataset_app. fold before. clearbody before.
  destruct before as [w1 [[]|e]].
  - exists (URLError (content row)).
    rewrite loop_cons, (convert_row_fetch_raise _ _ _ _ _ _ _ _ Hfetch).
    simpl in *. split; [done|]. split; [done|]. split; [done|]. exact Hfiles.
  - exists e. simpl in *. split; [done|]. split; [done|]. split; [done|]. exact Hfiles.
Qed.

Lemma C3_fetch_failure_witness :
  exists e : exn,
    create_dataset float_decimal demo_env [two_row; gone_row; bare_row]
      ["Jackets"; "Skirts"; "Tops"] "train" empty_world =
    (fst (create_dataset float_decimal demo_env [two_row]
            ["Jackets"; "Skirts"; "Tops"] "train" empty_world), Raise e) /\
    e = URLError "http://gone".
Proof.
  destruct (C3_fetch_failure_aborts float float_number float_decimal demo_env
              ["Jackets"; "Skirts"; "Tops"] "train" [two_row] [bare_row] gone_row
              empty_world) as (e & Hrun & He & _).
  - reflexivity.
  - exists e. split; [exact Hrun|]. apply He. vm_compute. reflexivity.
Defined.

(** * Further properties of the converter *)

(** ** [list.index]: position of the first occurrence *)

Lemma index_from_in (categories : list string) (lbl : string) (i : nat) :
  lbl ∈ categories ->
  exists k, index_from categories lbl i = Ok (i + k)%nat /\
            categories !! k = Some lbl /\
            forall j, j < k -> categories !! j <> Some lbl.
Proof.
  revert i. induction categories as [|c cs IH]; intros i Hin; [by inv Hin|].
  simpl. case_decide as Hc.
  - exists 0%nat. subst. repeat split; [f_equal; lia|lia].
  - destruct (IH (S i)) as (k & Hk & Hlook & Hfirst).
    { apply elem_of_cons in Hin as [->|Hin]; done. }
    exists (S k). rewrite Hk. repeat split; [f_equal; lia|done|].
    intros [|j] Hj; simpl; [congruence|]. apply Hfirst. lia.
Qed.

(** X1. [categories.index(label)] returns the position of the first
    occurrence of the label, so that [categories[index]] is the label
    again, and raises [ValueError] exactly when the label is absent. *)
Theorem X1_index_first_occurrence :
  forall (categories : list string) (lbl : string),
    (lbl ∈ categories ->
       exists k, index categories lbl = Ok k /\ categories !! k = Some lbl /\
                 forall j, j < k -> categories !! j <> Some lbl) /\
    (lbl ∉ categories -> index categories lbl = Raise (ValueError_not_in_list lbl)) /\
    (forall k, index categories lbl = Ok k ->
               categories !! k = Some lbl /\ k < length categories).
Proof.
  intros categories lbl. repeat split.
  - intros Hin. destruct (index_from_in categories lbl 0 Hin) as (k & Hk & Hrest).
    by exists k.
  - apply index_from_not_in.
  - apply index_from_ok in H as (k' & -> & Hk). done.
  - apply index_from_ok in H as (k' & -> & Hk). by eapply lookup_lt_Some.
Qed.

(** ** When a batch ends normally *)

(** A loop whose body succeeds or fails on an item regardless of the state
    ends normally exactly when the body succeeds on every item. *)
Lemma for_ok_iff {S A : Type} (l : list A) (body : A -> M S unit) (P : A -> Prop) :
  (forall x s, snd (body x s) = Ok tt <-> P x) ->
  forall s, snd (for_ l body s) = Ok tt <-> Forall P l.
Proof.
  intros Hbody. induction l as [|x l IH]; intros s; simpl.
  - split; [constructor|done].
  - unfold bind. pose proof (Hbody x s) as Hx.
    destruct (body x s) as [s' [[]|e]]; simpl in Hx.
    + rewrite IH, Forall_cons. tauto.
    + rewrite Forall_cons. simpl. split; [done|]. intros [HP _].
      by apply Hx in HP.
Qed.

Lemma Forall_enumerate_from {A : Type} (P : A -> Prop) (l : list A) (start : nat) :
  Forall (fun ir => P (snd ir)) (enumerate_from start l) <-> Forall P l.
Proof.
  revert start. induction l as [|x l IH]; intros start; simpl.
  - split; constructor.
  - by rewrite !Forall_cons, IH.
Qed.

Section SuccessFacts.
Context {num : Type} `{PyNumber num}.
Variable repr : num -> string.
Variable env : Env.
Variable categories : list string.
Variable dataset_type : string.

Implicit Types (a : Annotation num) (row : Row num) (clothing : list (Row num)).
Implicit Types (w : World) (buf lbl : string).

Lemma write_label_ok_iff a lbl buf :
  snd (write_label repr categories a lbl buf) = Ok tt <->
  lbl ∈ categories /\ length (points a) = 2%nat.
Proof.
  split.
  - intros Hok. destruct (decide (lbl ∈ categories)) as [Hin|Hnot].
    + split; [done|].
      destruct (index_from_in categories lbl 0 Hin) as (k & Hk & _).
      revert Hok. unfold write_label, bind, lift, index. rewrite Hk.
      by destruct (points a) as [|p1 [|p2 [|p3 pts]]].
    + by rewrite write_label_unknown in Hok.
  - intros [Hin Hlen].
    destruct (index_from_in categories lbl 0 Hin) as (k & Hk & _).
    destruct (points a) as [|p1 [|p2 [|p3 pts]]] eqn:Hp; try done.
    by rewrite (write_label_ok repr categories a lbl _ p1 p2 buf Hk Hp).
Qed.

Lemma write_annotation_ok_iff a buf :
  snd (write_annotation repr categories a buf) = Ok tt <->
  forall lbl, lbl ∈ label a -> lbl ∈ categories /\ length (points a) = 2%nat.
Proof.
  unfold write_annotation.
  rewrite (for_ok_iff _ _ (fun lbl => lbl ∈ categories /\ length (points a) = 2%nat)).
  - by rewrite Forall_forall.
  - intros lbl s. apply write_label_ok_iff.
Qed.

Lemma write_annotations_ok_iff (anns : list (Annotation num)) buf :
  snd (for_ anns (write_annotation repr categories) buf) = Ok tt <->
  forall a lbl, a ∈ anns -> lbl ∈ label a ->
    lbl ∈ categories /\ length (points a) = 2%nat.
Proof.
  rewrite (for_ok_iff _ _ (fun a => forall lbl, lbl ∈ label a ->
             lbl ∈ categories /\ length (points a) = 2%nat)).
  - rewrite Forall_forall. naive_solver.
  - intros a s. apply write_annotation_ok_iff.
Qed.

Lemma convert_row_ok_iff i row w :
  snd (convert_row repr env categories dataset_type (i, row) w) = Ok tt <->
  row_clean env categories row.
Proof.
  unfold row_clean. destruct (fetch env (content row)) as [img|e] eqn:Himg.
  - rewrite (convert_row_fetched _ _ _ _ _ _ _ _ Himg). simpl.
    rewrite write_annotations_ok_iff. split; [|tauto]. eauto.
  - rewrite (convert_row_fetch_raise _ _ _ _ _ _ _ _ Himg). simpl.
    split; [done|]. by intros [[img Himg'] _].
Qed.

Lemma loop_ok_iff start clothing w :
  snd (create_dataset_loop repr env categories dataset_type start clothing w) = Ok tt <->
  Forall (row_clean env categories) clothing.
Proof.
  unfold create_dataset_loop.
  rewrite (for_ok_iff _ _ (fun ir => row_clean env categories (snd ir))).
  - apply Forall_enumerate_from.
  - intros [i row] s. simpl. rewrite <-(convert_row_ok_iff i row s).
    unfold bind.
    by destruct (convert_row repr env categories dataset_type (i, row) s)
      as [s' [[]|e]].
Qed.

End SuccessFacts.


(** X3. After a batch in which every record converts, the progress bar
    has counted every record, and record number [i] has its image in
    [<i>.jpeg] and, in [<i>.txt], the rows written for its annotations. *)
Theorem X3_clean_batch_writes_every_record :
  forall (num : Type) (N : PyNumber num) (repr : num -> string) (env : Env)
         (categories : list string) (dataset_type : string)
         (clothing : list (Row num)) (w : World),
    Forall (row_clean env categories) clothing ->
    let out := create_dataset repr env clothing categories dataset_type w in
    tqdm_n (fst out) = (tqdm_n w + length clothing)%nat /\
    forall i row, clothing !! i = Some row ->
      (exists img, fetch env (content row) = Ok img /\
                   files (fst out) !! image_file dataset_type i = Some img) /\
      files (fst out) !! label_file dataset_type i =
        Some (fst (for_ (annotation row) (write_annotation repr categories) "")).
Proof.
  intros num N repr env categories dataset_type clothing w Hclean out. split.
  - apply create_dataset_tqdm_ok. rewrite create_dataset_loop_eq.
    by apply loop_ok_iff.
  - intros i row Hi.
    pose proof (take_drop_middle clothing i row Hi) as Hsplit.
    assert (Forall (row_clean env categories) (take i clothing)) as Hpre
      by (by apply Forall_take).
    assert (row_clean env categories row) as [[img Himg] _].
    { rewrite Forall_forall in Hclean. apply Hclean.
      by eapply list_elem_of_lookup_2. }
    apply (loop_ok_iff repr env categories dataset_type 0 _
             (fst (create_dataset repr env [] categories dataset_type w))) in Hpre.
    rewrite <-create_dataset_loop_eq in Hpre.
    destruct (create_dataset_record repr env categories dataset_type
                (take i clothing) row (drop (S i) clothing) w img Hpre Himg)
      as (Hlbl & Hjpg & _).
    rewrite Hsplit in Hlbl, Hjpg.
    rewrite length_take_le in Hlbl, Hjpg
      by (apply Nat.lt_le_incl; by eapply lookup_lt_Some).
    unfold out. split; [by exists img|done].
Qed.

(** ** When a batch raises *)

Section FailureFacts.
Context {num : Type} `{PyNumber num}.
Variable repr : num -> string.
Variable env : Env.
Variable categories : list string.
Variable dataset_type : string.

Implicit Types (row : Row num) (clothing pre post : list (Row num)) (w : World).

Local Abbreviation loop := (create_dataset_loop repr env categories dataset_type).
Local Abbreviation rows_of row :=
  (for_ (annotation row) (write_annotation repr categories) "").

(** A loop that raises stops at its first record that does not convert:
    the records before it are clean and counted, and the exception is the
    one of fetching that record or of writing its rows. *)
Lemma loop_raise_split start clothing w e :
  snd (loop start clothing w) = Raise e ->
  exists pre row post,
    clothing = pre ++ row :: post /\
    Forall (row_clean env categories) pre /\
    (fetch env (content row) = Raise e \/
     (exists img, fetch env (content row) = Ok img) /\ snd (rows_of row) = Raise e) /\
    tqdm_n (fst (loop start clothing w)) = (tqdm_n w + length pre)%nat.
Proof.
  revert start w. induction clothing as [|row post IH]; intros start w; [done|].
  rewrite loop_cons.
  destruct (fetch env (content row)) as [img|e0] eqn:Himg.
  - pose proof (convert_row_ok_iff repr env categories dataset_type start row w) as Hiff.
    rewrite (convert_row_fetched _ _ _ _ _ _ _ _ Himg) in Hiff |- *. simpl in Hiff.
    destruct (rows_of row) as [text [[]|e0]] eqn:Hrows; simpl.
    + intros (pre & row' & post' & -> & Hpre & Hrow & Hn)%IH.
      exists (row :: pre), row', post'. repeat split; try done.
      * constructor; [by apply Hiff|done].
      * rewrite Hn. simpl. lia.
    + intros [= ->]. exists [], row, post. repeat split; try done.
      right. split; [by exists img|by rewrite Hrows].
  - rewrite (convert_row_fetch_raise _ _ _ _ _ _ _ _ Himg). simpl.
    intros [= ->]. exists [], row, post. repeat split; try done.
    by left.
Qed.

(** The loop leaves the disk it found, with some files put on top; which
    files, how many records are counted and the outcome do not depend on
    the disk. *)
Lemma loop_frame start clothing :
  exists (u : gmap string string) (n : nat) (r : result unit),
    forall w, loop start clothing w =
              ({| files := u ∪ files w; dirs := dirs w; tqdm_n := tqdm_n w + n |}, r).
Proof.
  revert start. induction clothing as [|row post IH]; intros start.
  - exists ∅, 0%nat, (Ok tt). intros [f d n]. unfold create_dataset_loop. simpl.
    unfold ret. by rewrite (left_id_L ∅ (∪)), Nat.add_0_r.
  - destruct (fetch env (content row)) as [img|e0] eqn:Himg.
    + destruct (rows_of row) as [text [[]|e0]] eqn:Hrows.
      * destruct (IH (S start)) as (u & n & r & Hloop).
        exists (u ∪ ({[label_file dataset_type start := text]} ∪
                     {[image_file dataset_type start := img]})), (S n), r.
        intros w. rewrite loop_cons, (convert_row_fetched _ _ _ _ _ _ _ _ Himg), Hrows.
        simpl. rewrite Hloop. simpl. f_equal. f_equal; [|lia].
        by rewrite !insert_union_singleton_l, !(assoc_L (∪)).
      * exists ({[label_file dataset_type start := text]} ∪
                {[image_file dataset_type start := img]}), 0%nat, (Raise e0).
        intros w. rewrite loop_cons, (convert_row_fetched _ _ _ _ _ _ _ _ Himg), Hrows.
        simpl. unfold set_files. simpl. f_equal. f_equal; [|lia].
        by rewrite !insert_union_singleton_l, !(assoc_L (∪)).
    + exists ∅, 0%nat, (Raise e0). intros [f d n].
      rewrite loop_cons, (convert_row_fetch_raise _ _ _ _ _ _ _ _ Himg). simpl.
      by rewrite (left_id_L ∅ (∪)), Nat.add_0_r.
Qed.

Lemma create_dataset_frame clothing :
  exists (u : gmap string string) (n : nat) (r : result unit),
    forall w, create_dataset repr env clothing categories dataset_type w =
              ({| files := u ∪ files w;
                  dirs := dirs w ∪ made_dirs dataset_type;
                  tqdm_n := tqdm_n w + n |}, r).
Proof.
  destruct (loop_frame 0 clothing) as (u & n & r & Hloop).
  exists u, n, r. intros w. rewrite create_dataset_loop_eq, Hloop.
  unfold create_dataset, create_dataset_loop, bind, mkdir_parents, ret, made_dirs.
  cbn -[path_prefixes list_to_set union]. by rewrite (assoc_L (∪)).
Qed.

End FailureFacts.



(** X5. [create_dataset] does not read the disk and overwrites what it
    wrote before: run again on the same records from the state it left, it
    has the same outcome and leaves the same files and the same
    directories. *)
Theorem X5_rerun_overwrites :
  forall (num : Type) (N : PyNumber num) (repr : num -> string) (env : Env)
         (categories : list string) (dataset_type : string)
         (clothing : list (Row num)) (w : World),
    let once := create_dataset repr env clothing categories dataset_type w in
    let twice := create_dataset repr env clothing categories dataset_type (fst once) in
    snd twice = snd once /\
    files (fst twice) = files (fst once) /\
    dirs (fst twice) = dirs (fst once).
Proof.
  intros num N repr env categories dataset_type clothing w once twice.
  destruct (create_dataset_frame repr env categories dataset_type clothing)
    as (u & n & r & Hrun).
  unfold twice, once. rewrite !Hrun. simpl. repeat split.
  - by rewrite (assoc_L (∪)), (idemp_L (∪) u).
  - by rewrite <-(assoc_L (∪)), (idemp_L (∪) (made_dirs dataset_type)).
Qed.

(** X6. [create_dataset] removes no file, and under a plain split name it
    leaves the image and label files numbered from the size of the batch on
    as they were: the files a longer earlier batch left under higher
    numbers stay, stale, beside the new ones. *)
Theorem X6_stale_files_survive :
  forall (num : Type) (N : PyNumber num) (repr : num -> string) (env : Env)
         (categories : list string) (dataset_type : string)
         (clothing : list (Row num)) (w : World),
    plain_name dataset_type ->
    let out := create_dataset repr env clothing categories dataset_type w in
    dom (files w) ⊆ dom (files (fst out)) /\
    forall j, length clothing <= j ->
      files (fst out) !! label_file dataset_type j =
        files w !! label_file dataset_type j /\
      files (fst out) !! image_file dataset_type j =
        files w !! image_file dataset_type j.
Proof.
  intros num N repr env categories dataset_type clothing w _ out. split.
  - destruct (create_dataset_frame repr env categories dataset_type clothing)
      as (u & n & r & Hrun).
    unfold out. rewrite Hrun. simpl. rewrite dom_union. apply union_subseteq_r.
  - intros j Hj. unfold out.
    by apply (create_dataset_files_beyond repr env categories dataset_type clothing w j).
Qed.

Lemma plain_train : plain_name "train".
Proof. repeat split; try discriminate. unfold slash_free. compute_done. Qed.

Lemma plain_val : plain_name "val".
Proof. repeat split; try discriminate. unfold slash_free. compute_done. Qed.

Lemma X6_stale_files_witness :
  files (fst (create_dataset float_decimal demo_env [bare_row]
                ["Jackets"; "Skirts"] "train"
                (fst (create_dataset float_decimal demo_env [bare_row; two_row]
                        ["Jackets"; "Skirts"] "train" empty_world))))
    !! label_file "train" 1 =
  files (fst (create_dataset float_decimal demo_env [bare_row; two_row]
                ["Jackets"; "Skirts"] "train" empty_world))
    !! label_file "train" 1.
Proof.
  destruct (X6_stale_files_survive float float_number float_decimal demo_env
              ["Jackets"; "Skirts"] "train" [bare_row]
              (fst (create_dataset float_decimal demo_env [bare_row; two_row]
                      ["Jackets"; "Skirts"] "train" empty_world))
              plain_train) as [_ Hstale].
  destruct (Hstale 1%nat) as [Hlbl _].
  - simpl. lia.
  - exact Hlbl.
Defined.

(** ** The two splits do not collide *)

Lemma slash_free_cons (c : ascii) (s : string) :
  slash_free (String c s) <-> c <> "/"%char /\ slash_free s.
Proof.
  unfold slash_free. simpl. rewrite not_elem_of_cons.
  split; intros [Hc Hs]; split; congruence.
Qed.

Lemma slash_split (d1 d2 r1 r2 : string) :
  slash_free d1 -> slash_free d2 ->
  d1 +:+ String "/" r1 = d2 +:+ String "/" r2 -> d1 = d2.
Proof.
  revert d2. induction d1 as [|c d1 IH]; intros [|c' d2] H1 H2 Heq.
  - done.
  - rewrite app_nil_l, app_cons in Heq. injection Heq as <- _.
    apply slash_free_cons in H2 as [Hc _]. done.
  - rewrite app_nil_l, app_cons in Heq. injection Heq as -> _.
    apply slash_free_cons in H1 as [Hc _]. done.
  - rewrite !app_cons in Heq. injection Heq as -> Heq.
    apply slash_free_cons in H1 as [_ H1]. apply slash_free_cons in H2 as [_ H2].
    f_equal. by apply IH.
Qed.

Lemma label_file_type_inj (ty1 ty2 : string) (i j : nat) :
  slash_free ty1 -> slash_free ty2 ->
  label_file ty1 i = label_file ty2 j -> ty1 = ty2.
Proof.
  unfold label_file. intros H1 H2 Heq.
  apply (inj (String.app _)) in Heq. by eapply slash_split.
Qed.

Lemma image_file_type_inj (ty1 ty2 : string) (i j : nat) :
  slash_free ty1 -> slash_free ty2 ->
  image_file ty1 i = image_file ty2 j -> ty1 = ty2.
Proof.
  unfold image_file. intros H1 H2 Heq.
  apply (inj (String.app _)) in Heq. by eapply slash_split.
Qed.

Lemma label_file_not_image_of (ty1 ty2 : string) (i j : nat) :
  label_file ty1 i <> image_file ty2 j.
Proof.
  unfold label_file, image_file. intros Heq.
  rewrite !app_cons in Heq. discriminate Heq.
Qed.

(** X7. Batches written under different split names do not touch each
    other's files: for two distinct plain names, such as ["train"] and
    ["val"], [create_dataset] under the one leaves every image and label
    file of the other as it was. *)
Theorem X7_splits_do_not_collide :
  forall (num : Type) (N : PyNumber num) (repr : num -> string) (env : Env)
         (categories : list string) (ty1 ty2 : string)
         (clothing : list (Row num)) (w : World),
    plain_name ty1 -> plain_name ty2 -> ty1 <> ty2 ->
    let out := create_dataset repr env clothing categories ty2 w in
    forall i,
      files (fst out) !! label_file ty1 i = files w !! label_file ty1 i /\
      files (fst out) !! image_file ty1 i = files w !! image_file ty1 i.
Proof.
  intros num N repr env categories ty1 ty2 clothing w [H1 _] [H2 _] Hne out i.
  unfold out. rewrite create_dataset_loop_eq.
  rewrite !loop_files_other; [done|..]; intros j _; split.
  - intros Heq%image_file_type_inj; done.
  - intros Heq. symmetry in Heq. by apply label_file_not_image_of in Heq.
  - apply label_file_not_image_of.
  - intros Heq%label_file_type_inj; done.
Qed.

Lemma X7_splits_witness :
  files (fst (create_dataset float_decimal demo_env [bare_row; two_row]
                ["Jackets"; "Skirts"] "val"
                (fst (create_dataset float_decimal demo_env [two_row]
                        ["Jackets"; "Skirts"] "train" empty_world))))
    !! "clothing/labels/train/0.txt" =
  files (fst (create_dataset float_decimal demo_env [two_row]
                ["Jackets"; "Skirts"] "train" empty_world))
    !! "clothing/labels/train/0.txt".
Proof.
  assert ("train" <> "val") as Hne by discriminate.
  destruct (X7_splits_do_not_collide float float_number float_decimal demo_env
              ["Jackets"; "Skirts"] "train" "val" [bare_row; two_row]
              (fst (create_dataset float_decimal demo_env [two_row]
                      ["Jackets"; "Skirts"] "train" empty_world))
              plain_train plain_val Hne 0%nat) as [Hlbl _].
  exact Hlbl.
Defined.

(** ** The categories fit every split *)

(** X8. Categories built from a set of records fit every batch drawn from
    those records (a train or validation split): every label of the batch
    has an index, smaller than the number of categories, and
    [create_dataset] run on the batch with those categories never raises
    the [ValueError] of [categories.index]. *)
Theorem X8_categories_fit_every_split :
  forall (num : Type) (N : PyNumber num) (order : list string -> list string)
         (clothing split : list (Row num)),
    is_set_order order ->
    (forall row, row ∈ split -> row ∈ clothing) ->
    (forall row a lbl, row ∈ split -> a ∈ annotation row -> lbl ∈ label a ->
       exists k, index (categories_of order clothing) lbl = Ok k /\
                 k < length (categories_of order clothing)) /\
    (forall (repr : num -> string) (env : Env) (dataset_type : string) (w : World)
            (e : exn),
       snd (create_dataset repr env split (categories_of order clothing)
              dataset_type w) = Raise e ->
       forall lbl, e <> ValueError_not_in_list lbl).
Proof.
  intros num N order clothing split Ho Hsub.
  assert (forall row a lbl, row ∈ split -> a ∈ annotation row -> lbl ∈ label a ->
            lbl ∈ categories_of order clothing) as Hcover.
  { intros row a lbl Hrow Ha Hl. apply categories_of_elem; [done|].
    apply all_labels_elem. exists row, a. auto. }
  split.
  - intros row a lbl Hrow Ha Hl.
    destruct (index_from_in _ lbl 0 (Hcover row a lbl Hrow Ha Hl)) as (k & Hk & Hlook & _).
    exists k. split; [done|]. by eapply lookup_lt_Some.
  - intros repr env dataset_type w e. rewrite create_dataset_loop_eq.
    intros (pre & row & post & -> & _ & Hrow & _)%loop_raise_split lbl ->.
    destruct Hrow as [Hf|[_ Hrows]].
    + unfold fetch in Hf. destruct (urlopen env (content row)); [|done].
      by destruct (image_open env s).
    + apply write_annotations_raise in Hrows as (a & lbl' & Ha & Hl & [[Heq Hnot]|[Heq _]]);
        [|done].
      apply Hnot. apply (Hcover row a lbl'); [|done..].
      apply elem_of_app. right. by left.
Qed.

Lemma X8_categories_fit_witness :
  exists k, index (categories_of gset_order [tops_row; two_row; bare_row]) "Skirts" = Ok k /\
            k < length (categories_of gset_order [tops_row; two_row; bare_row]).
Proof.
  destruct (X8_categories_fit_every_split float float_number gset_order
              [tops_row; two_row; bare_row] [bare_row; two_row] gset_order_ok)
    as [Hidx _].
  - intros row Hrow. rewrite !elem_of_cons.
    apply elem_of_cons in Hrow as [->|Hrow]; [tauto|].
    apply elem_of_cons in Hrow as [->|Hrow]; [tauto|]. by apply elem_of_nil in Hrow.
  - apply (Hidx two_row skirts "Skirts").
    + right. by left.
    + right. by left.
    + by left.
Defined.

(** ** The rows of a label file, in general *)

Lemma concat_rows_app (rows1 rows2 : list string) :
  foldr String.app "" (rows1 ++ rows2) =
  foldr String.app "" rows1 +:+ foldr String.app "" rows2.
Proof.
  induction rows1 as [|r rows1 IH]; simpl; [done|].
  by rewrite IH, app_assoc_s.
Qed.

Section RowsFacts.
Context {num : Type} `{PyNumber num}.
Variable repr : num -> string.
Variable categories : list string.

Implicit Types (a : Annotation num) (anns : list (Annotation num)) (buf lbl : string).

(** The row written for the label [lbl] of the annotation [a]. *)
Local Abbreviation row_for a lbl r :=
  (exists i p1 p2, index categories lbl = Ok i /\ points a = [p1; p2] /\
                   r = label_row repr i (bbox p1 p2)).

Lemma write_labels_rows a (lbls : list string) buf :
  snd (for_ lbls (write_label repr categories a) buf) = Ok tt ->
  exists rows : list string,
    fst (for_ lbls (write_label repr categories a) buf) = buf +:+ foldr String.app "" rows /\
    Forall2 (fun lbl r => row_for a lbl r) lbls rows.
Proof.
  revert buf. induction lbls as [|lbl lbls IH]; intros buf; simpl.
  - intros _. exists []. simpl. by rewrite app_nil_r.
  - unfold bind.
    destruct (write_label repr categories a lbl buf) as [buf' [[]|e]] eqn:Hw; [|done].
    assert (snd (write_label repr categories a lbl buf) = Ok tt) as Hok by (by rewrite Hw).
    apply write_label_ok_iff in Hok as [Hin Hlen].
    destruct (index_from_in categories lbl 0 Hin) as (k & Hk & _).
    destruct (points a) as [|p1 [|p2 [|p3 pts]]] eqn:Hp; try done.
    rewrite (write_label_ok repr categories a lbl _ p1 p2 buf Hk Hp) in Hw.
    injection Hw as <-.
    intros (rows & Hfst & Hall)%IH.
    exists (label_row repr (0 + k) (bbox p1 p2) :: rows). split.
    + rewrite Hfst. simpl. by rewrite app_assoc_s.
    + constructor; [|done]. by exists (0 + k)%nat, p1, p2.
Qed.

Lemma write_annotations_rows anns buf :
  snd (for_ anns (write_annotation repr categories) buf) = Ok tt ->
  exists rows : list string,
    fst (for_ anns (write_annotation repr categories) buf) =
      buf +:+ foldr String.app "" rows /\
    Forall2 (fun al r => row_for (fst al) (snd al) r) (labelled anns) rows.
Proof.
  revert buf. induction anns as [|a anns IH]; intros buf; simpl.
  - intros _. exists []. simpl. split; [by rewrite app_nil_r|constructor].
  - unfold bind.
    destruct (write_annotation repr categories a buf) as [buf' [[]|e]] eqn:Hw; [|done].
    assert (snd (for_ (label a) (write_label repr categories a) buf) = Ok tt) as Hok.
    { unfold write_annotation in Hw. by rewrite Hw. }
    apply write_labels_rows in Hok as (rows1 & Hfst1 & Hall1).
    unfold write_annotation in Hw. rewrite Hw in Hfst1. simpl in Hfst1. subst buf'.
    intros (rows2 & Hfst2 & Hall2)%IH.
    exists (rows1 ++ rows2). split.
    + by rewrite Hfst2, concat_rows_app, app_assoc_s.
    + unfold labelled. simpl. apply Forall2_app; [|done].
      by apply Forall2_fmap_l.
Qed.

(** The rows written up to an unknown label: the annotations before are
    written in full, then the rows of the labels before the unknown one. *)
Lemma write_annotations_until_unknown (anns1 anns2 : list (Annotation num)) a
    (lbls1 lbls2 : list string) lbl (idxs : list nat) (p1 p2 : Point num) :
  (forall a' lbl', a' ∈ anns1 -> lbl' ∈ label a' ->
     lbl' ∈ categories /\ length (points a') = 2%nat) ->
  label a = lbls1 ++ lbl :: lbls2 ->
  points a = [p1; p2] ->
  Forall2 (fun l i => index categories l = Ok i) lbls1 idxs ->
  lbl ∉ categories ->
  for_ (anns1 ++ a :: anns2) (write_annotation repr categories) "" =
  (fst (for_ anns1 (write_annotation repr categories) "") +:+
     label_rows repr idxs (bbox p1 p2),
   Raise (ValueError_not_in_list lbl)).
Proof.
  intros Hclean Hlbls Hp Hidx Hnot. rewrite for_app.
  apply (write_annotations_ok_iff repr categories anns1 "") in Hclean.
  destruct (for_ anns1 (write_annotation repr categories) "") as [before [[]|e]];
    simpl in *; [|done].
  unfold bind, write_annotation. rewrite Hlbls, for_app.
  rewrite (write_labels_ok repr categories a lbls1 idxs p1 p2 before Hp Hidx).
  simpl. unfold bind. by rewrite write_label_unknown.
Qed.

End RowsFacts.

Lemma labelled_app {num : Type} (anns1 anns2 : list (Annotation num)) :
  labelled (anns1 ++ anns2) = labelled anns1 ++ labelled anns2.
Proof. unfold labelled. apply flat_map_app. Qed.

(** C10. An annotation with [k] labels gets exactly [k] rows in the label
    file of its record, one per label in the order of the labels, each with
    the index of its label and all [k] with the centre, width and height of
    the one box of the annotation. The file is these rows between the rows
    of the annotations before and the rows of the annotations after, and
    nothing else. *)
Theorem C10_one_row_per_label :
  forall (num : Type) (N : PyNumber num) (repr : num -> string) (env : Env)
         (categories : list string) (dataset_type : string)
         (pre post : list (Row num)) (row : Row num) (w : World)
         (anns1 anns2 : list (Annotation num)) (a : Annotation num)
         (p1 p2 : Point num),
    snd (create_dataset repr env (pre ++ [row]) categories dataset_type w) = Ok tt ->
    annotation row = anns1 ++ a :: anns2 ->
    points a = [p1; p2] ->
    let line := fun (i : nat) (b : Box num) =>
      pretty i +:+ " " +:+ repr (center_x b) +:+ " " +:+ repr (center_y b) +:+ " " +:+
      repr (width b) +:+ " " +:+ repr (height b) +:+ nl in
    let rows_of := fun (anns : list (Annotation num)) (rows : list string) =>
      Forall2 (fun al r =>
                 exists i q1 q2, index categories (snd al) = Ok i /\
                                 points (fst al) = [q1; q2] /\
                                 r = line i (bbox q1 q2))
        (labelled anns) rows in
    exists (rows1 rows rows2 : list string),
      files (fst (create_dataset repr env (pre ++ row :: post) categories dataset_type w))
        !! label_file dataset_type (length pre) =
      Some (foldr String.app "" (rows1 ++ rows ++ rows2)) /\
      length rows = length (label a) /\
      Forall2 (fun lbl r => exists i, index categories lbl = Ok i /\
                                      r = line i (bbox p1 p2))
        (label a) rows /\
      rows_of anns1 rows1 /\
      rows_of anns2 rows2.
Proof.
  intros num N repr env categories dataset_type pre post row w anns1 anns2 a p1 p2
    Hrun Hann Hp line rows_of.
  apply create_dataset_snoc_ok in Hrun as (Hpre & [img Himg] & Hrows).
  destruct (create_dataset_record repr env categories dataset_type
              pre row post w img Hpre Himg) as (Hlbl & _).
  apply write_annotations_rows in Hrows as (all & Hfst & Hall).
  rewrite Hann, (labelled_app anns1 (a :: anns2)) in Hall.
  change (labelled (a :: anns2)) with (map (pair a) (label a) ++ labelled anns2) in Hall.
  apply Forall2_app_inv_l in Hall as (rows1 & rest & H1 & Hrest & ->).
  apply Forall2_app_inv_l in Hrest as (rows & rows2 & Ha & H2 & ->).
  apply Forall2_fmap_l in Ha.
  assert (Forall2 (fun lbl r => exists i, index categories lbl = Ok i /\
                                          r = line i (bbox p1 p2)) (label a) rows) as Ha'.
  { eapply Forall2_impl; [exact Ha|]. simpl.
    intros lbl r (i & q1 & q2 & Hi & Hq & ->). rewrite Hp in Hq.
    injection Hq as <- <-. by exists i. }
  exists rows1, rows, rows2. rewrite Hlbl, Hfst, app_nil_l.
  split; [done|]. split; [symmetry; by eapply Forall2_length|].
  split; [done|]. split; done.
Qed.

Lemma C10_one_row_per_label_witness :
  exists (rows1 rows rows2 : list string),
    files (fst (create_dataset float_decimal demo_env
                  [mkRow "http://three" [jackets; both; skirts]]
                  ["Jackets"; "Skirts"] "train" empty_world))
      !! label_file "train" 0 =
    Some (foldr String.app "" (rows1 ++ rows ++ rows2)) /\
    length rows = 2%nat /\
    length rows1 = 1%nat /\ length rows2 = 1%nat.
Proof.
  destruct (C10_one_row_per_label float float_number float_decimal demo_env
              ["Jackets"; "Skirts"] "train" [] []
              (mkRow "http://three" [jackets; both; skirts]) empty_world
              [jackets] [skirts] both (pt 0.25 0.25) (pt 0.75 1))
    as (rows1 & rows & rows2 & Hfile & Hlen & _ & H1 & H2).
  - vm_compute. reflexivity.
  - reflexivity.
  - reflexivity.
  - exists rows1, rows, rows2. split; [exact Hfile|]. split; [exact Hlen|].
    apply Forall2_length in H1. apply Forall2_length in H2.
    split; [exact (eq_sym H1) | exact (eq_sym H2)].
Defined.

(** X9. The label file of a record that converts holds exactly one row per
    (annotation, label) pair of the record, in the order of the annotations
    and, within an annotation, of its labels; each row is made of the index
    of the label and the box of the two points of its annotation. *)
Theorem X9_label_file_rows :
  forall (num : Type) (N : PyNumber num) (repr : num -> string) (env : Env)
         (categories : list string) (dataset_type : string)
         (pre post : list (Row num)) (row : Row num) (w : World),
    snd (create_dataset repr env (pre ++ [row]) categories dataset_type w) = Ok tt ->
    exists rows : list string,
      files (fst (create_dataset repr env (pre ++ row :: post) categories dataset_type w))
        !! label_file dataset_type (length pre) = Some (foldr String.app "" rows) /\
      length rows = length (labelled (annotation row)) /\
      Forall2 (fun al r =>
                 exists i p1 p2, index categories (snd al) = Ok i /\
                                 points (fst al) = [p1; p2] /\
                                 r = label_row repr i (bbox p1 p2))
        (labelled (annotation row)) rows.
Proof.
  intros num N repr env categories dataset_type pre post row w Hrun.
  apply create_dataset_snoc_ok in Hrun as (Hpre & [img Himg] & Hrows).
  destruct (create_dataset_record repr env categories dataset_type
              pre row post w img Hpre Himg) as (Hlbl & _).
  apply write_annotations_rows in Hrows as (rows & Hfst & Hall).
  exists rows. rewrite Hlbl, Hfst, app_nil_l. repeat split; [|done].
  symmetry. by eapply Forall2_length.
Qed.

Lemma X9_label_file_rows_witness :
  exists rows : list string,
    files (fst (create_dataset float_decimal demo_env
                  [bare_row; mkRow "http://three" [jackets; both; skirts]]
                  ["Jackets"; "Skirts"] "train" empty_world))
      !! label_file "train" 1 = Some (foldr String.app "" rows) /\
    length rows = 4%nat.
Proof.
  destruct (X9_label_file_rows float float_number float_decimal demo_env
              ["Jackets"; "Skirts"] "train" [bare_row] []
              (mkRow "http://three" [jackets; both; skirts]) empty_world)
    as (rows & Hfile & Hlen & _).
  - vm_compute. reflexivity.
  - exists rows. split; [exact Hfile | exact Hlen].
Defined.

(** X10. A record that fails on an unknown label leaves files behind: its
    image has been saved, and its label file exists and holds the rows
    written before the failure, that is the rows of the annotations before
    the failing one and of the labels before the unknown one. The
    progress bar has counted the records before it only. *)
Theorem X10_failed_record_leaves_partial_files :
  forall (num : Type) (N : PyNumber num) (repr : num -> string) (env : Env)
         (categories : list string) (dataset_type : string)
         (pre post : list (Row num)) (row : Row num) (w : World) (img : string)
         (anns1 anns2 : list (Annotation num)) (a : Annotation num)
         (lbls1 lbls2 : list string) (lbl : string) (idxs : list nat)
         (p1 p2 : Point num),
    snd (create_dataset repr env pre categories dataset_type w) = Ok tt ->
    fetch env (content row) = Ok img ->
    annotation row = anns1 ++ a :: anns2 ->
    (forall a' lbl', a' ∈ anns1 -> lbl' ∈ label a' ->
       lbl' ∈ categories /\ length (points a') = 2%nat) ->
    label a = lbls1 ++ lbl :: lbls2 ->
    points a = [p1; p2] ->
    Forall2 (fun l i => index categories l = Ok i) lbls1 idxs ->
    lbl ∉ categories ->
    let out := create_dataset repr env (pre ++ row :: post) categories dataset_type w in
    snd out = Raise (ValueError_not_in_list lbl) /\
    files (fst out) !! image_file dataset_type (length pre) = Some img /\
    files (fst out) !! label_file dataset_type (length pre) =
      Some (fst (for_ anns1 (write_annotation repr categories) "") +:+
            label_rows repr idxs (bbox p1 p2)) /\
    tqdm_n (fst out) = (tqdm_n w + length pre)%nat.
Proof.
  intros num N repr env categories dataset_type pre post row w img anns1 anns2 a
    lbls1 lbls2 lbl idxs p1 p2 Hpre Himg Hann Hclean Hlbls Hp Hidx Hnot out.
  pose proof (write_annotations_until_unknown repr categories anns1 anns2 a
                lbls1 lbls2 lbl idxs p1 p2 Hclean Hlbls Hp Hidx Hnot) as Hrows.
  rewrite <-Hann in Hrows.
  destruct (create_dataset_at repr env categories dataset_type pre row post w Hpre)
    as (Hlbl & Hjpg & _ & Hraise).
  rewrite (convert_row_fetched _ _ _ _ _ _ _ _ Himg), Hrows in Hlbl, Hjpg, Hraise.
  simpl in Hlbl, Hjpg, Hraise.
  destruct (Hraise _ eq_refl) as [Hout Hn].
  rewrite lookup_insert_eq in Hlbl.
  rewrite lookup_insert_ne, lookup_insert_eq in Hjpg by apply label_file_not_image.
  unfold out. rewrite Hout. simpl. repeat split; try done.
  - by rewrite Hout in Hjpg.
  - by rewrite Hout in Hlbl.
Qed.

Lemma X10_failed_record_witness :
  snd (create_dataset float_decimal demo_env
         [bare_row; mkRow "http://mixed" [jackets; tops; skirts]; two_row]
         ["Jackets"; "Skirts"] "train" empty_world) =
    Raise (ValueError_not_in_list "Tops") /\
  files (fst (create_dataset float_decimal demo_env
                [bare_row; mkRow "http://mixed" [jackets; tops; skirts]; two_row]
                ["Jackets"; "Skirts"] "train" empty_world))
    !! label_file "train" 1 =
  Some (label_row float_decimal 0
          (bbox (pt 0 0.6185897435897436)
                (pt 0.026415094339622643 0.6185897435897436))).
Proof.
  destruct (X10_failed_record_leaves_partial_files float float_number float_decimal
              demo_env ["Jackets"; "Skirts"] "train" [bare_row] [two_row]
              (mkRow "http://mixed" [jackets; tops; skirts]) empty_world
              "jpeg:body:http://mixed" [jackets] [skirts] tops [] [] "Tops" []
              (pt 0.02040816326530612 0.2532051282051282)
              (pt 0.9931972789115646 0.8108974358974359))
    as (Hout & _ & Hlbl & _).
  - vm_compute. reflexivity.
  - vm_compute. reflexivity.
  - reflexivity.
  - intros a' lbl' Ha Hl. apply list_elem_of_singleton in Ha as ->.
    apply list_elem_of_singleton in Hl as ->. split; [|reflexivity].
    by left.
  - reflexivity.
  - reflexivity.
  - constructor.
  - rewrite !elem_of_cons, elem_of_nil. intros [Heq|[Heq|[]]]; discriminate Heq.
  - split; [exact Hout|]. etrans; [exact Hlbl|]. vm_compute. reflexivity.
Defined.

Lemma X3_clean_batch_witness :
  tqdm_n (fst (create_dataset float_decimal demo_env [bare_row; two_row]
                 ["Jackets"; "Skirts"] "val" empty_world)) = (0 + 2)%nat.
Proof.
  assert (row_clean demo_env ["Jackets"; "Skirts"] bare_row) as Hbare.
  { split; [by exists "jpeg:body:http://bare"|].
    intros a lbl Ha. by apply elem_of_nil in Ha. }
  assert (row_clean demo_env ["Jackets"; "Skirts"] two_row) as Htwo.
  { split; [by exists "jpeg:body:http://two"|].
    intros a lbl Ha Hl.
    apply elem_of_cons in Ha as [->|Ha]; [|apply list_elem_of_singleton in Ha as ->];
      apply list_elem_of_singleton in Hl as ->; (split; [|reflexivity]).
    - by left.
    - right. by left. }
  destruct (X3_clean_batch_writes_every_record float float_number float_decimal
              demo_env ["Jackets"; "Skirts"] "val" [bare_row; two_row] empty_world)
    as [Hn _].
  - constructor; [exact Hbare|]. constructor; [exact Htwo|]. constructor.
  - exact Hn.
Defined.

(** * The sentiment API *)

Section SentimentFacts.
Context {num : Type} `{PyNumber num}.

Implicit Types (l pre : list num) (best c : num).

(** [torch.max] returns a value together with a position that holds it. *)
Lemma torch_max_from_lookup l pre best best_i c j :
  pre !! best_i = Some best ->
  Sentiment.torch_max_from best best_i (length pre) l = (c, j) ->
  (pre ++ l) !! j = Some c.
Proof.
  revert pre best best_i. induction l as [|x l IH]; intros pre best best_i Hbest; simpl.
  - intros [= <- <-]. by rewrite (right_id_L [] (++)).
  - rewrite (cons_middle x pre l), (assoc_L (++)).
    replace (S (length pre)) with (length (pre ++ [x]))
      by (rewrite length_app; simpl; lia).
    destruct (num_leb x best).
    + apply IH. by apply lookup_app_l_Some.
    + apply IH. by rewrite lookup_app_r, Nat.sub_diag.
Qed.

Lemma torch_max_lookup l c j :
  Sentiment.torch_max l = Some (c, j) -> l !! j = Some c.
Proof.
  destruct l as [|x l]; [done|]. simpl. intros [= Hmax].
  by apply (torch_max_from_lookup l [x] x 0 c j).
Qed.

Lemma torch_max_some l : l <> [] -> exists c j, Sentiment.torch_max l = Some (c, j).
Proof.
  destruct l as [|x l]; [done|]. intros _. simpl.
  destruct (Sentiment.torch_max_from x 0 1 l) as [c j]. by exists c, j.
Qed.

(** Where the values compare (the order is total and transitive on them,
    as it is on floats that are not NaN), the value returned is the
    largest. *)
Lemma torch_max_from_greatest l pre best best_i c j :
  (forall a b, a ∈ pre ++ l -> b ∈ pre ++ l ->
     num_leb a b = true \/ num_leb b a = true) ->
  (forall a b d, a ∈ pre ++ l -> b ∈ pre ++ l -> d ∈ pre ++ l ->
     num_leb a b = true -> num_leb b d = true -> num_leb a d = true) ->
  best ∈ pre ->
  (forall y, y ∈ pre -> num_leb y best = true) ->
  Sentiment.torch_max_from best best_i (length pre) l = (c, j) ->
  forall y, y ∈ pre ++ l -> num_leb y c = true.
Proof.
  revert pre best best_i. induction l as [|x l IH];
    intros pre best best_i Htot Htrans Hin Hbest; simpl.
  - intros [= <- <-] y. rewrite (right_id_L [] (++)). apply Hbest.
  - rewrite (cons_middle x pre l), (assoc_L (++)) in Htot, Htrans |- *.
    replace (S (length pre)) with (length (pre ++ [x]))
      by (rewrite length_app; simpl; lia).
    assert (x ∈ (pre ++ [x]) ++ l) as Hx.
    { rewrite !elem_of_app, list_elem_of_singleton. tauto. }
    assert (best ∈ pre ++ [x]) as Hb' by (rewrite elem_of_app; tauto).
    assert (best ∈ (pre ++ [x]) ++ l) as Hb by (rewrite elem_of_app; tauto).
    destruct (num_leb x best) eqn:Hle.
    + apply IH; [done|done|done|].
      intros y [Hy| ->%list_elem_of_singleton]%elem_of_app; [by apply Hbest|done].
    + assert (num_leb best x = true) as Hbx.
      { destruct (Htot x best Hx Hb) as [Hc|Hc]; [congruence|done]. }
      apply IH; [done|done|rewrite elem_of_app, list_elem_of_singleton; tauto|].
      intros y [Hy| ->%list_elem_of_singleton]%elem_of_app.
      * apply (Htrans y best x); [|done|done|by apply Hbest|done].
        rewrite !elem_of_app. tauto.
      * destruct (Htot x x Hx Hx); done.
Qed.

End SentimentFacts.

(** [dict(pairs)] with distinct keys: every pair can be looked up, and the
    keys are those of the pairs. *)
Lemma dict_from_other {V : Type} (pairs : list (string * V)) (m : gmap string V)
    (key : string) :
  key ∉ pairs.*1 ->
  foldl (fun m kv => <[fst kv := snd kv]> m) m pairs !! key = m !! key.
Proof.
  revert m. induction pairs as [|[k0 v0] pairs IH]; intros m Hnot; simpl; [done|].
  simpl in Hnot. apply not_elem_of_cons in Hnot as [Hne Hnot].
  rewrite IH by done. by rewrite lookup_insert_ne.
Qed.

Lemma dict_from_lookup {V : Type} (pairs : list (string * V)) (m : gmap string V)
    (key : string) (v : V) :
  NoDup pairs.*1 -> (key, v) ∈ pairs ->
  foldl (fun m kv => <[fst kv := snd kv]> m) m pairs !! key = Some v.
Proof.
  revert m. induction pairs as [|[k0 v0] pairs IH]; intros m Hnd Hin; [by inv Hin|].
  simpl in *. apply NoDup_cons in Hnd as [Hk0 Hnd].
  apply elem_of_cons in Hin as [[= -> ->]|Hin].
  - rewrite dict_from_other by done. by rewrite lookup_insert_eq.
  - by apply IH.
Qed.

Lemma dict_from_dom {V : Type} (pairs : list (string * V)) (m : gmap string V) :
  dom (foldl (fun m kv => <[fst kv := snd kv]> m) m pairs) =
  dom m ∪ list_to_set pairs.*1.
Proof.
  revert m. induction pairs as [|[k0 v0] pairs IH]; intros m; simpl.
  - by rewrite (right_id_L ∅ (∪)).
  - rewrite IH, dom_insert_L.
    by rewrite (comm_L (∪) {[k0]} (dom m)), <-(assoc_L (∪)).
Qed.

Lemma zip_keys_elem {V : Type} (names : list string) (vals : list V) (name : string) :
  name ∈ (zip names vals).*1 -> name ∈ names.
Proof.
  revert vals. induction names as [|n names IH]; intros [|v vals]; simpl;
    try (by intros Hin; inv Hin).
  intros [->|Hin]%elem_of_cons; [by left|]. right. by eapply IH.
Qed.

Lemma zip_keys_NoDup {V : Type} (names : list string) (vals : list V) :
  NoDup names -> NoDup (zip names vals).*1.
Proof.
  intros Hnd. revert vals. induction Hnd as [|n names Hn Hnd IH]; intros [|v vals];
    simpl; try constructor; [|done].
  intros Hin. apply Hn. by eapply zip_keys_elem.
Qed.

(** X11. The response of [POST /predict] is consistent: when the class
    names are distinct and the model gives one probability per class name
    (at least one), the handler answers without an error, the sentiment is
    one of the class names, [probabilities] has exactly the class names as
    keys, each with the probability at its position, and [confidence] is
    the probability listed for the sentiment. *)
Theorem X11_response_is_consistent :
  forall (num : Type) (N : PyNumber num) (config : Sentiment.Config)
         (model : Sentiment.Model num) (request : Sentiment.SentimentRequest),
    let names := Sentiment.CLASS_NAMES config in
    let probs := Sentiment.softmax_row model (Sentiment.MAX_SEQUENCE_LEN config)
                   (Sentiment.text request) in
    NoDup names -> names <> [] -> length probs = length names ->
    exists resp,
      Sentiment.predict config request model = inr resp /\
      Sentiment.sentiment resp ∈ names /\
      Sentiment.probabilities resp !! Sentiment.sentiment resp =
        Some (Sentiment.confidence resp) /\
      dom (Sentiment.probabilities resp) = list_to_set names /\
      forall k name p, names !! k = Some name -> probs !! k = Some p ->
                       Sentiment.probabilities resp !! name = Some p.
Proof.
  intros num N config model request names probs Hnd Hne Hlen.
  assert (probs <> []) as Hprobs.
  { intros Heq. rewrite Heq in Hlen. by destruct names. }
  destruct (torch_max_some probs Hprobs) as (c & j & Hmax).
  pose proof (torch_max_lookup probs c j Hmax) as Hj.
  destruct (lookup_lt_is_Some_2 names j) as [name Hname].
  { rewrite <-Hlen. by eapply lookup_lt_Some. }
  assert ((zip names probs).*1 = names) as Hkeys.
  { apply fst_zip. lia. }
  assert (forall k name p, names !! k = Some name -> probs !! k = Some p ->
            Sentiment.dict (zip names probs) !! name = Some p) as Hlook.
  { intros k name' p Hk Hp. unfold Sentiment.dict.
    apply dict_from_lookup; [by rewrite Hkeys|].
    apply list_elem_of_lookup. exists k. apply lookup_zip_with_Some.
    by exists name', p. }
  exists (Sentiment.mkResponse (Sentiment.dict (zip names probs)) name c).
  unfold Sentiment.predict, Sentiment.Model_predict.
  fold names. fold probs. rewrite Hmax, Hname. simpl.
  split; [done|]. split; [by eapply list_elem_of_lookup_2|].
  split; [by eapply Hlook|]. split; [|done].
  unfold Sentiment.dict. by rewrite dict_from_dom, dom_empty_L, (left_id_L ∅ (∪)), Hkeys.
Qed.

Lemma X11_response_witness :
  exists resp,
    Sentiment.predict Sentiment.demo_config (Sentiment.mkRequest "great app")
      Sentiment.demo_model = inr resp /\
    Sentiment.probabilities resp !! Sentiment.sentiment resp =
      Some (Sentiment.confidence resp).
Proof.
  destruct (X11_response_is_consistent Q Q_number Sentiment.demo_config
              Sentiment.demo_model (Sentiment.mkRequest "great app"))
    as (resp & Hresp & _ & Hconf & _).
  - compute_done.
  - discriminate.
  - reflexivity.
  - by exists resp.
Defined.

(** X12. [confidence] is the largest probability: when the probabilities
    the model gives compare with each other (as floats other than NaN do),
    no probability listed in the response exceeds the confidence. *)
Theorem X12_confidence_is_largest :
  forall (num : Type) (N : PyNumber num) (config : Sentiment.Config)
         (model : Sentiment.Model num) (request : Sentiment.SentimentRequest)
         (resp : Sentiment.SentimentResponse num),
    let names := Sentiment.CLASS_NAMES config in
    let probs := Sentiment.softmax_row model (Sentiment.MAX_SEQUENCE_LEN config)
                   (Sentiment.text request) in
    (forall a b, a ∈ probs -> b ∈ probs -> num_leb a b = true \/ num_leb b a = true) ->
    (forall a b d, a ∈ probs -> b ∈ probs -> d ∈ probs ->
       num_leb a b = true -> num_leb b d = true -> num_leb a d = true) ->
    NoDup names ->
    Sentiment.predict config request model = inr resp ->
    forall name p, Sentiment.probabilities resp !! name = Some p ->
                   num_leb p (Sentiment.confidence resp) = true.
Proof.
  intros num N config model request resp names probs Htot Htrans Hnd.
  unfold Sentiment.predict, Sentiment.Model_predict. fold names. fold probs.
  destruct (Sentiment.torch_max probs) as [[c j]|] eqn:Hmax; [|done].
  destruct (names !! j) as [name0|]; [|done].
  intros [= <-] name p. simpl. intros Hp.
  assert (p ∈ probs) as Hin.
  { unfold Sentiment.dict in Hp.
    destruct (decide (name ∈ (zip names probs).*1)) as [Hkey|Hkey].
    - apply list_elem_of_fmap in Hkey as ([name' p'] & -> & Hpair). simpl in Hp.
      assert (NoDup (zip names probs).*1) as Hnd' by (by apply zip_keys_NoDup).
      rewrite (dict_from_lookup _ ∅ name' p' Hnd' Hpair) in Hp.
      injection Hp as <-.
      apply list_elem_of_lookup in Hpair as [k Hk].
      apply lookup_zip_with_Some in Hk as (x & y & [= <- <-] & _ & Hy).
      by eapply list_elem_of_lookup_2.
    - by rewrite dict_from_other in Hp. }
  destruct probs as [|x l] eqn:Hprobs; [by inv Hin|].
  simpl in Hmax. injection Hmax as Hmax.
  apply (torch_max_from_greatest l [x] x 0 c j); try done.
  - by left.
  - intros y ->%list_elem_of_singleton.
    destruct (Htot x x); [by left|by left|done..].
Qed.

Lemma X12_confidence_witness :
  exists resp,
    Sentiment.predict Sentiment.demo_config (Sentiment.mkRequest "great app")
      Sentiment.demo_model = inr resp /\
    num_leb (3 # 200)%Q (Sentiment.confidence resp) = true.
Proof.
  eexists. split; [reflexivity|].
  apply (X12_confidence_is_largest Q Q_number Sentiment.demo_config
           Sentiment.demo_model (Sentiment.mkRequest "great app") _)
    with (name := "neutral").
  - intros a b _ _. simpl. rewrite !Qle_bool_iff.
    destruct (Qlt_le_dec a b) as [Hlt|Hle].
    + left. by apply Qlt_le_weak.
    + by right.
  - intros a b d _ _ _. simpl. rewrite !Qle_bool_iff. apply Qle_trans.
  - compute_done.
  - reflexivity.
  - vm_compute. reflexivity.
Defined.
